(** * Cavy's TestRunner: a shallow embedding of src/TestRunner.js

  The runner walks the test suites, runs every selected test case through
  its lifecycle, accumulates results and hands a report to the reporter.
  Everything the runner calls into (the Tester component, hooks, test
  bodies, the reporter, the clock) is a collaborator: it is modelled as a
  transformer of an abstract [World] that also says how the call completed.
  The runner's own fields ([results], [errorCount]) and the console are
  threaded through a small state-and-exception monad.

  What is not modelled: [run] and [pause] (the start delay is a timer), and
  what a promise that is not awaited does after the call that created it
  has returned. *)

From Stdlib Require Import ZArith QArith List String Ascii Bool Arith Lia Sorted.
Import ListNotations.

Close Scope Q_scope.
Open Scope string_scope.

(** ** The fragment of JavaScript values the runner looks at *)
Module Js.

(** Identity of an object (what [this] is bound to in a call). *)
Definition ref := nat.

(** The value of a property the runner reads and formats ([e.message]). *)
Inductive value :=
| undefined
| str (s : string).

(** Conversion performed by a template literal. *)
Definition to_string (v : value) : string :=
  match v with
  | undefined => "undefined"
  | str s => s
  end.

(** What a [throw] or a rejected promise carries.  Reading a property of
    [null] or [undefined] raises, so the two kinds are kept apart; for any
    other thrown value only its [message] property matters here. *)
Inductive thrown :=
| nullish
| object (message : value).

Definition TypeError (msg : string) : thrown := object (str msg).
Definition ReferenceError (msg : string) : thrown := object (str msg).

(** How a call to a collaborator completes: it returns (a value, or a
    promise that fulfils), it returns a promise that rejects, or it throws
    before returning. *)
Inductive completion :=
| returns
| rejects (e : thrown)
| throws (e : thrown).

(** [e.message] *)
Definition get_message (e : thrown) : value + thrown :=
  match e with
  | nullish => inr (TypeError "Cannot read property 'message' of undefined")
  | object m => inl m
  end.

(** Line feed, as written [\n] in the source. *)
Definition nl : string := String (ascii_of_nat 10) EmptyString.

End Js.

(** ** Results and reports *)
Module Result.
Record t := mk {
  describeLabel : string;
  description : string;
  message : string;
  errorMessage : option Js.value;  (* the key is absent on success *)
  passed : bool;
  time : Q
}.

Definition failed (r : t) : bool := negb (passed r).
End Result.

Module FullResults.
Record t := mk {
  time : Q;
  timestamp : Z;
  testCases : list Result.t
}.
End FullResults.

Module Report.
Record t := mk {
  results : list Result.t;
  fullResults : FullResults.t;
  errorCount : nat;
  duration : Q
}.
End Report.

(** What the reporter's [send] is handed: the two-field object built after
  each test, or (deferred reporters) the whole report. *)
Inductive payload :=
| fragment (message : string) (passed : bool)
| whole (report : Report.t).

(** Observable events, in the order they happen.  [invoke_runTest i j] is a
  ghost event: it marks the call [this.runTest(scope, scope.testCases[j])]
  made by the loop at indices [i], [j]. *)
Inductive event :=
| console_log (s : string)
| console_warn (s : string)
| invoke_runTest (i j : nat)
| call_clearAsync
| call_beforeEach (this : Js.ref)
| call_reRender
| call_f (this : Js.ref)
| call_reporter (report : Report.t)
| call_onFinish (report : Report.t)
| call_send (p : payload).

(** [(stop - start) / 1000]: milliseconds to seconds.  The source computes
  the double nearest to this rational. *)
Definition seconds (start stop : Z) : Q := (stop - start) # 1000.

Module TestRunner.

(** The host: [new Date()] in milliseconds, the formatting of a date and of
    a number inside a template literal, and whether an assignment to an
    identifier that no scope declares creates a global (non-strict
    execution) or raises a ReferenceError (strict code, which a class body
    is). *)
Record Host (World : Type) := {
  now : World -> Z;
  date_to_string : Z -> string;
  number_to_string : Q -> string;
  implicit_globals : bool
}.

Arguments now {World}.
Arguments date_to_string {World}.
Arguments number_to_string {World}.
Arguments implicit_globals {World}.

Section Engine.

(** Everything outside the runner: the app under test, the state the
    suites keep between hook and test body, the clock. *)
Context {World : Type}.

Variable host : Host World.

(** A call into a collaborator. *)
Definition action := World -> World * Js.completion.

(** The Tester component. *)
Record Component := {
  clearAsync : action;
  reRender : action
}.

Record TestCase := {
  describeLabel : string;
  label : string;
  tag : option string;       (* [None]: the test has no tag *)
  f : Js.ref -> action       (* called as [f.call(scope)] *)
}.

(** A TestScope.  [self] is the identity of the scope object, which hooks
    and test bodies receive as [this]. *)
Record TestScope := {
  self : Js.ref;
  testCases : list TestCase;
  beforeEach : option (Js.ref -> action)
}.

(** The injected reporter, by what the runner can tell about it: whether
    it is a function, whether it is [null]/[undefined], and otherwise its
    [type] property and its [onFinish] and [send] members ([None] when the
    member is missing, so that calling it raises). *)
Inductive Reporter :=
| reporter_function (g : Report.t -> action)
| reporter_nullish
| reporter_object (type : Js.value)
                  (onFinish : option (Report.t -> action))
                  (send : option (payload -> action)).

(** The constructor's arguments.  [shouldSendReport] is [None] when the
    prop is [undefined] or [null], else its truthiness; [filter] is [None]
    when falsy, else the array of tags. *)
Record Config := {
  component : Component;
  testSuites : list TestScope;
  reporter : Reporter;
  shouldSendReport : option bool;
  filter : option (list string)
}.

(** The runner's mutable fields, the world and the events so far. *)
Record machine := {
  world : World;
  results : list Result.t;
  errorCount : nat;
  trace : list event
}.

(** [this.results = []; this.errorCount = 0] *)
Definition constructed (w : World) : machine :=
  {| world := w; results := []; errorCount := 0; trace := [] |}.

(** *** The monad: state plus exceptions; state changes survive a throw *)
Definition M (A : Type) := machine -> machine * (A + Js.thrown).

Definition ret {A} (a : A) : M A := fun m => (m, inl a).

Definition throw {A} (e : Js.thrown) : M A := fun m => (m, inr e).

Definition bind {A B} (c : M A) (k : A -> M B) : M B :=
  fun m =>
    match c m with
    | (m', inl a) => k a m'
    | (m', inr e) => (m', inr e)
    end.

Definition try_catch {A} (body : M A) (handler : Js.thrown -> M A) : M A :=
  fun m =>
    match body m with
    | (m', inl a) => (m', inl a)
    | (m', inr e) => handler e m'
    end.

Notation "x <- c1 ;; c2" := (bind c1 (fun x => c2))
  (at level 61, c1 at next level, right associativity).
Notation "c1 ;; c2" := (bind c1 (fun _ => c2))
  (at level 61, right associativity).

(** *** Primitive steps *)

Definition set_world (w : World) (m : machine) : machine :=
  {| world := w; results := results m; errorCount := errorCount m;
     trace := trace m |}.

(** [new Date()] *)
Definition new_Date : M Z := fun m => (m, inl (now host (world m))).

Definition emit (e : event) : M unit :=
  fun m =>
    ({| world := world m; results := results m; errorCount := errorCount m;
        trace := trace m ++ [e] |}, inl tt).

(** [await a()]: a rejection of the returned promise is raised here. *)
Definition await (a : action) : M unit :=
  fun m =>
    let (w, c) := a (world m) in
    (set_world w m,
     match c with
     | Js.returns => inl tt
     | Js.rejects e => inr e
     | Js.throws e => inr e
     end).

(** [a()] without [await]: only a synchronous throw is seen; a promise that
    rejects later is nobody's. *)
Definition call (a : action) : M unit :=
  fun m =>
    let (w, c) := a (world m) in
    (set_world w m,
     match c with
     | Js.throws e => inr e
     | _ => inl tt
     end).

(** [this.results.push(r)] *)
Definition push (r : Result.t) : M unit :=
  fun m =>
    ({| world := world m; results := results m ++ [r];
        errorCount := errorCount m; trace := trace m |}, inl tt).

(** [this.errorCount += 1] *)
Definition increase_errorCount : M unit :=
  fun m =>
    ({| world := world m; results := results m;
        errorCount := errorCount m + 1; trace := trace m |}, inl tt).

Definition get_results : M (list Result.t) := fun m => (m, inl (results m)).

Definition get_errorCount : M nat := fun m => (m, inl (errorCount m)).

(** [e.message] inside the handler. *)
Definition message_of (e : Js.thrown) : M Js.value :=
  match Js.get_message e with
  | inl v => ret v
  | inr t => throw t
  end.

(** [v == 'literal'] for the property values modelled. *)
Definition loose_eq (v : Js.value) (s : string) : bool :=
  match v with
  | Js.str s' => String.eqb s' s
  | Js.undefined => false
  end.

(** [arr.includes(tag)]: the array holds strings, so an undefined tag is
    never found. *)
Definition includes (arr : list string) (tag : option string) : bool :=
  match tag with
  | Some t => existsb (String.eqb t) arr
  | None => false
  end.

Definition truthy {A} (o : option A) : bool :=
  match o with
  | Some _ => true
  | None => false
  end.

(** Calling a member of the reporter: a missing member is not callable. *)
Definition call_member {A} (ev : A -> event) (name : string)
    (member : option (A -> action)) (arg : A) (awaited : bool) : M unit :=
  match member with
  | None => throw (Js.TypeError (name ++ " is not a function"))
  | Some g => emit (ev arg) ;; if awaited then await (g arg) else call (g arg)
  end.

Definition type_of_nullish : Js.thrown :=
  Js.TypeError "Cannot read property 'type' of undefined".

(** *** The runner's methods *)
Section Methods.

Variable cfg : Config.

(** Lines 141-145 and 163-167:
    [if (!(this.reporter instanceof Function) && this.reporter.type == 'realtime')
       this.reporter.send(result)] *)
Definition send_if_realtime (result : payload) : M unit :=
  match reporter cfg with
  | reporter_function _ => ret tt
  | reporter_nullish => throw type_of_nullish
  | reporter_object type _ send =>
      if loose_eq type "realtime"
      then call_member call_send "this.reporter.send" send result false
      else ret tt
  end.

Definition description_of (test : TestCase) : string :=
  describeLabel test ++ ": " ++ label test.

Definition successMsg_of (description : string) : string :=
  description ++ "  ✅".

Definition fullErrorMessage_of (description : string) (msg : Js.value) : string :=
  description ++ "  ❌" ++ Js.nl ++ "   " ++ Js.to_string msg.

(** Lines 113-119: everything [runTest] does before the [try]. *)
Definition before_try (scope : TestScope) : M Z :=
  start <- new_Date ;;
  emit call_clearAsync ;;
  await (clearAsync (component cfg)) ;;
  match beforeEach scope with
  | Some hook => emit (call_beforeEach (self scope)) ;; await (hook (self scope))
  | None => ret tt
  end ;;
  emit call_reRender ;;
  call (reRender (component cfg)) ;;
  ret start.

(** Lines 126-145: the [try] block. *)
Definition try_block (scope : TestScope) (test : TestCase) (start : Z) : M unit :=
  let description := description_of test in
  emit (call_f (self scope)) ;;
  await (f test (self scope)) ;;
  stop <- new_Date ;;
  let time := seconds start stop in
  let successMsg := successMsg_of description in
  emit (console_log successMsg) ;;
  push (Result.mk (describeLabel test) description successMsg None true time) ;;
  send_if_realtime (fragment successMsg true).

(** Lines 147-171: the [catch] block. *)
Definition catch_block (test : TestCase) (start : Z) (e : Js.thrown) : M unit :=
  let description := description_of test in
  stop <- new_Date ;;
  let time := seconds start stop in
  msg <- message_of e ;;
  let fullErrorMessage := fullErrorMessage_of description msg in
  emit (console_warn fullErrorMessage) ;;
  push (Result.mk (describeLabel test) description fullErrorMessage
          (Some msg) false time) ;;
  send_if_realtime (fragment fullErrorMessage false) ;;
  increase_errorCount.

Definition runTest (scope : TestScope) (test : TestCase) : M unit :=
  start <- before_try scope ;;
  try_catch (try_block scope test start) (catch_block test start).

(** Line 52: [!this.filter || (this.filter && this.filter.includes(tag))] *)
Definition should_run (tag : option string) : bool :=
  negb (truthy (filter cfg))
  || match filter cfg with
     | Some arr => includes arr tag
     | None => false
     end.

(** The inner loop over [scope.testCases], from index [j]. *)
Fixpoint for_testCases (i : nat) (scope : TestScope) (j : nat)
    (cases : list TestCase) : M unit :=
  match cases with
  | [] => ret tt
  | test :: rest =>
      (if should_run (tag test)
       then emit (invoke_runTest i j) ;; runTest scope test
       else ret tt) ;;
      for_testCases i scope (S j) rest
  end.

(** The outer loop over [this.testSuites], from index [i]. *)
Fixpoint for_testSuites (i : nat) (suites : list TestScope) : M unit :=
  match suites with
  | [] => ret tt
  | scope :: rest =>
      for_testCases i scope 0 (testCases scope) ;;
      for_testSuites (S i) rest
  end.

Definition deprecation_message : string :=
  "Deprecation warning: using the `sendReport` prop is " ++
  "deprecated. By default, Cavy now checks whether the " ++
  "cavy-cli server is running and sends a report if a " ++
  "connection is detected.".

Definition invalid_reporter_message : string :=
  "Could not find a valid reporter. For more " ++
  "information on custom reporters, see the documentation " ++
  "here: https://cavy.app/docs/guides/writing-custom-reporters".

(** Line 96: [message = ...] where no enclosing scope declares [message]
    (the [const message] of line 65 is local to the block of that [if]). *)
Definition assign_undeclared (name : string) : M unit :=
  if implicit_globals host
  then ret tt
  else throw (Js.ReferenceError (name ++ " is not defined")).

(** Lines 74-100: build the report and hand it to the reporter. *)
Definition send_report (start : Z) (duration : Q) : M unit :=
  testCases <- get_results ;;
  let fullResults := FullResults.mk duration start testCases in
  results <- get_results ;;
  count <- get_errorCount ;;
  let report := Report.mk results fullResults count duration in
  match reporter cfg with
  | reporter_function g => emit (call_reporter report) ;; await (g report)
  | reporter_nullish => throw type_of_nullish
  | reporter_object type onFinish send =>
      if loose_eq type "realtime"
      then call_member call_onFinish "this.reporter.onFinish" onFinish report true
      else if loose_eq type "deferred"
      then call_member call_send "this.reporter.send" send (whole report) true
      else assign_undeclared "message" ;;
           emit (console_log invalid_reporter_message)
  end.

(** Lines 40-56: the start line and the two loops. *)
Definition run_cases : M Z :=
  start <- new_Date ;;
  emit (console_log ("Cavy test suite started at " ++ date_to_string host start ++ ".")) ;;
  for_testSuites 0 (testSuites cfg) ;;
  ret start.

(** Lines 58-101: what follows the loops. *)
Definition after_cases (start : Z) : M unit :=
  stop <- new_Date ;;
  let duration := seconds start stop in
  emit (console_log ("Cavy test suite stopped at " ++ date_to_string host stop ++
                     ", duration: " ++ number_to_string host duration ++ " seconds.")) ;;
  match shouldSendReport cfg with
  | Some sendReport =>
      emit (console_warn deprecation_message) ;;
      if negb sendReport then ret tt else send_report start duration
  | None => send_report start duration
  end.

Definition runTestSuites : M unit :=
  start <- run_cases ;;
  after_cases start.

(** *** What the loops select

    The tests that pass the filter, with their indices and scope, in the
    order the two loops reach them. *)
Definition selection : Type := (nat * nat) * (TestScope * TestCase).

Definition index_of (s : selection) : nat * nat := fst s.

Definition scope_of (s : selection) : TestScope := fst (snd s).

Definition test_of (s : selection) : TestCase := snd (snd s).

Fixpoint selected_testCases (i : nat) (scope : TestScope) (j : nat)
    (cases : list TestCase) : list selection :=
  match cases with
  | [] => []
  | test :: rest =>
      (if should_run (tag test) then [((i, j), (scope, test))] else [])
      ++ selected_testCases i scope (S j) rest
  end.

Fixpoint selected_testSuites (i : nat) (suites : list TestScope) : list selection :=
  match suites with
  | [] => []
  | scope :: rest =>
      selected_testCases i scope 0 (testCases scope)
      ++ selected_testSuites (S i) rest
  end.

Definition selected : list selection := selected_testSuites 0 (testSuites cfg).

(** Every test, filter or not, with its indices. *)
Fixpoint declared_testCases (i : nat) (scope : TestScope) (j : nat)
    (cases : list TestCase) : list selection :=
  match cases with
  | [] => []
  | test :: rest => ((i, j), (scope, test)) :: declared_testCases i scope (S j) rest
  end.

Fixpoint declared_testSuites (i : nat) (suites : list TestScope) : list selection :=
  match suites with
  | [] => []
  | scope :: rest =>
      declared_testCases i scope 0 (testCases scope)
      ++ declared_testSuites (S i) rest
  end.

Definition declared : list selection := declared_testSuites 0 (testSuites cfg).

End Methods.
(** *** Outcomes of a computation

    [wp c Q E m]: run from [m], [c] either returns [a] in a state satisfying
    [Q a], or throws [e] in a state satisfying [E e]. *)
Definition wp {A} (c : M A) (Q : A -> machine -> Prop)
    (E : Js.thrown -> machine -> Prop) (m : machine) : Prop :=
  match c m with
  | (m', inl a) => Q a m'
  | (m', inr e) => E e m'
  end.

(** [c] returns normally from [m]. *)
Definition completes {A} (c : M A) (m : machine) : Prop :=
  exists a, snd (c m) = inl a.

(** An action that never throws before returning. *)
Definition never_throws (a : action) : Prop :=
  forall w e, snd (a w) <> Js.throws e.

(** An action that never makes time go backwards. *)
Definition keeps_time (a : action) : Prop :=
  forall w, (now host w <= now host (fst (a w)))%Z.

End Engine.

Arguments action : clear implicits.
Arguments Component : clear implicits.
Arguments TestCase : clear implicits.
Arguments TestScope : clear implicits.
Arguments Reporter : clear implicits.
Arguments Config : clear implicits.
Arguments machine : clear implicits.
Arguments M : clear implicits.
Arguments selection : clear implicits.

(** ** Reading a trace *)

Definition collect {A} (pick : event -> option A) (t : list event) : list A :=
  flat_map (fun e => match pick e with Some a => [a] | None => [] end) t.

(** The calls [this.runTest(...)] made by the loops, by indices. *)
Definition invocation (e : event) : option (nat * nat) :=
  match e with
  | invoke_runTest i j => Some (i, j)
  | _ => None
  end.

Definition invocations : list event -> list (nat * nat) := collect invocation.

(** Every call the reporter receives. *)
Definition reporter_call (e : event) : option event :=
  match e with
  | call_reporter _ | call_onFinish _ | call_send _ => Some e
  | _ => None
  end.

Definition reporter_calls : list event -> list event := collect reporter_call.

(** The calls that hand over a report at the end of a run. *)
Definition delivery (e : event) : option Report.t :=
  match e with
  | call_reporter r | call_onFinish r | call_send (whole r) => Some r
  | _ => None
  end.

Definition deliveries : list event -> list Report.t := collect delivery.

(** The steps of a test's lifecycle. *)
Definition lifecycle_step (e : event) : option event :=
  match e with
  | call_clearAsync | call_beforeEach _ | call_reRender | call_f _ => Some e
  | _ => None
  end.

Definition lifecycle : list event -> list event := collect lifecycle_step.

Definition warning (e : event) : option string :=
  match e with
  | console_warn s => Some s
  | _ => None
  end.

Definition warnings : list event -> list string := collect warning.

Definition logged (e : event) : option string :=
  match e with
  | console_log s => Some s
  | _ => None
  end.

Definition logs : list event -> list string := collect logged.

(** The object streamed to a realtime reporter for a result. *)
Definition fragment_of (r : Result.t) : payload :=
  fragment (Result.message r) (Result.passed r).

(** [count(r in results where !r.passed)] *)
Definition failures (rs : list Result.t) : nat :=
  List.length (List.filter Result.failed rs).

(** Order of the loops on index pairs: suite first, then test. *)
Definition before (p q : nat * nat) : Prop :=
  fst p < fst q \/ (fst p = fst q /\ snd p < snd q).

End TestRunner.

(** ** Vocabulary for the statements *)
Module Spec.
Import TestRunner.

Section Vocabulary.

Context {World : Type}.

Variable host : Host World.
Variable cfg : Config World.

(** [pre] is an initial segment of [l]. *)
Definition prefix {A} (pre l : list A) : Prop := exists rest, l = (pre ++ rest)%list.

(** The lifecycle of a test of [scope], in the order of the source's
    header comment: clear the storage, call the hook if the suite has one
    (with the suite as [this]), re-render, run the test (with the suite as
    [this]). *)
Definition lifecycle_of (scope : TestScope World) : list event :=
  ([call_clearAsync]
   ++ match beforeEach scope with
      | Some _ => [call_beforeEach (self scope)]
      | None => []
      end
   ++ [call_reRender; call_f (self scope)])%list.

(** The events a call of [runTest] can produce. *)
Definition runTest_event (e : event) : Prop :=
  match e with
  | console_log _ | console_warn _ | call_clearAsync | call_beforeEach _
  | call_reRender | call_f _ | call_send (fragment _ _) => True
  | _ => False
  end.

(** The realtime reporter, if that is what the reporter is, has a [send]
    that never throws before returning; and there is a reporter. *)
Definition quiet_send : Prop :=
  match reporter cfg with
  | reporter_function _ => True
  | reporter_nullish => False
  | reporter_object type _ send =>
      loose_eq type "realtime" = true ->
      exists s, send = Some s /\ forall p, never_throws (s p)
  end.

(** The reporter is one to which [runTest] streams nothing. *)
Definition not_realtime : Prop :=
  match reporter cfg with
  | reporter_function _ => True
  | reporter_nullish => False
  | reporter_object type _ _ => loose_eq type "realtime" = false
  end.

(** Whether a declared test passes the filter. *)
Definition passes (s : selection World) : bool := should_run cfg (tag (test_of s)).

(** Whether [runTest] streams to the reporter. *)
Definition is_realtime : bool :=
  match reporter cfg with
  | reporter_object type _ _ => loose_eq type "realtime"
  | _ => false
  end.

(** The calls the runner makes into the component, the hooks and the test
    bodies of this configuration. *)
Inductive collaborator : action World -> Prop :=
| collab_clearAsync : collaborator (clearAsync (component cfg))
| collab_reRender : collaborator (reRender (component cfg))
| collab_beforeEach scope hook :
    In scope (testSuites cfg) ->
    beforeEach scope = Some hook ->
    collaborator (hook (self scope))
| collab_f scope test :
    In scope (testSuites cfg) ->
    In test (testCases scope) ->
    collaborator (f test (self scope)).

(** Time never goes backwards while the tests run. *)
Definition steady_clock : Prop :=
  forall a, collaborator a -> keeps_time host a.

(** Steps 2-4 of the lifecycle never fail: [clearAsync] and the hooks
    fulfil, [reRender] does not throw. *)
Definition reliable_setup : Prop :=
  (forall w, snd (clearAsync (component cfg) w) = Js.returns) /\
  (forall w e, snd (reRender (component cfg) w) <> Js.throws e) /\
  (forall scope hook,
     In scope (testSuites cfg) ->
     beforeEach scope = Some hook ->
     forall w, snd (hook (self scope) w) = Js.returns).

(** Test bodies never throw [null] or [undefined]. *)
Definition proper_errors : Prop :=
  forall scope test,
    In scope (testSuites cfg) ->
    In test (testCases scope) ->
    forall w, snd (f test (self scope) w) <> Js.rejects Js.nullish /\
              snd (f test (self scope) w) <> Js.throws Js.nullish.

(** The failed result that [runTest] builds for a test started at [start]
    whose body stopped at [stop] with an error of message [msg]. *)
Definition failed_result (test : TestCase World) (start stop : Z)
    (msg : Js.value) : Result.t :=
  Result.mk (describeLabel test) (description_of test)
            (fullErrorMessage_of (description_of test) msg)
            (Some msg) false (seconds start stop).

(** The stop line of line 60. *)
Definition stop_line (start stop : Z) : string :=
  "Cavy test suite stopped at " ++ date_to_string host stop ++
  ", duration: " ++ number_to_string host (seconds start stop) ++ " seconds.".

(** The report of lines 74-86, built in state [m] of a run started at
    [start]. *)
Definition report_of (start : Z) (m : machine World) : Report.t :=
  let duration := seconds start (now host (world m)) in
  Report.mk (results m) (FullResults.mk duration start (results m))
            (errorCount m) duration.

(** The reporter is a non-null object of neither known type. *)
Definition unrecognised : Prop :=
  match reporter cfg with
  | reporter_object type _ _ =>
      loose_eq type "realtime" = false /\ loose_eq type "deferred" = false
  | _ => False
  end.

(** [errorCount == count(r in results where !r.passed)] *)
Definition balanced (m : machine World) : Prop :=
  errorCount m = failures (results m).

(** The passed result that [runTest] builds for a test started at [start]
    whose body fulfilled at [stop]. *)
Definition success_result (test : TestCase World) (start stop : Z) : Result.t :=
  Result.mk (describeLabel test) (description_of test)
            (successMsg_of (description_of test)) None true (seconds start stop).

(** The two shapes a result can have: passed, with the success line and no
    [errorMessage]; failed, with an [errorMessage] and the failure line made
    from it. *)
Definition well_formed (r : Result.t) : Prop :=
  if Result.passed r
  then Result.errorMessage r = None /\
       Result.message r = successMsg_of (Result.description r)
  else exists msg,
         Result.errorMessage r = Some msg /\
         Result.message r = fullErrorMessage_of (Result.description r) msg.

(** [r] carries the labels of the test of [s]. *)
Definition result_of (s : selection World) (r : Result.t) : Prop :=
  Result.describeLabel r = describeLabel (test_of s) /\
  Result.description r = description_of (test_of s).

(** Whether the dispatch of lines 89-100 finds something to call: the
    reporter itself, the [onFinish] of a realtime reporter, the [send] of a
    deferred one. *)
Definition hands_over : bool :=
  match reporter cfg with
  | reporter_function _ => true
  | reporter_nullish => false
  | reporter_object type onFinish send =>
      if loose_eq type "realtime" then truthy onFinish
      else if loose_eq type "deferred" then truthy send
      else false
  end.

(** The start line of line 41, and the state once it is logged. *)
Definition start_line (start : Z) : string :=
  "Cavy test suite started at " ++ date_to_string host start ++ ".".

Definition started (m : machine World) : machine World :=
  {| world := world m; results := results m; errorCount := errorCount m;
     trace := trace m ++ [console_log (start_line (now host (world m)))] |}.

(** What the console holds of the tests, against the results: after
    [lines], the logged lines are the messages of the passed results, and
    the warnings are the messages of the failed ones. *)
Definition console_matches (m : machine World) (lines : list string) : Prop :=
  logs (trace m) =
  (lines ++ map Result.message (List.filter Result.passed (results m)))%list /\
  warnings (trace m) = map Result.message (List.filter Result.failed (results m)).

(** A report that agrees with itself. *)
Definition consistent_report (r : Report.t) : Prop :=
  Report.errorCount r = failures (Report.results r) /\
  FullResults.testCases (Report.fullResults r) = Report.results r /\
  FullResults.time (Report.fullResults r) = Report.duration r.

(** [await]: what the caller sees of a completed call. *)
Definition awaited (c : Js.completion) : unit + Js.thrown :=
  match c with
  | Js.returns => inl tt
  | Js.rejects e => inr e
  | Js.throws e => inr e
  end.

(** The result that a test started at [start] gets when its body has
    completed as [c], at [stop]; none when the body threw [null] or
    [undefined]. *)
Definition outcome_result (test : TestCase World) (start stop : Z)
    (c : Js.completion) : option Result.t :=
  match c with
  | Js.returns => Some (success_result test start stop)
  | Js.rejects (Js.object msg) => Some (failed_result test start stop msg)
  | Js.throws (Js.object msg) => Some (failed_result test start stop msg)
  | _ => None
  end.

(** The console line of a result: logged when passed, warned when not. *)
Definition console_line (r : Result.t) : event :=
  if Result.passed r
  then console_log (Result.message r)
  else console_warn (Result.message r).

(** The lifecycle of a test written out step by step, on the world alone,
    to compare [runTest] with: what each step is applied to, in which
    world, and whose outcome is waited for.  First the steps before the
    body: reset the shared state and wait for it; if the suite has a setup
    hook, call it on the suite and wait for it; resynchronize, which only
    stops the lifecycle when the call itself throws.  The outcome is the
    calls made, the world they left, and the error that stopped them, if
    one did. *)
Definition setup_run (scope : TestScope World) (w : World)
    : list event * World * option Js.thrown :=
  let (w1, c1) := clearAsync (component cfg) w in
  match awaited c1 with
  | inr e => ([call_clearAsync], w1, Some e)
  | inl _ =>
      let '(hook_steps, w2, c2) :=
        match beforeEach scope with
        | Some hook =>
            let (w2, c2) := hook (self scope) w1 in
            ([call_beforeEach (self scope)], w2, c2)
        | None => ([], w1, Js.returns)
        end in
      match awaited c2 with
      | inr e => (call_clearAsync :: hook_steps, w2, Some e)
      | inl _ =>
          let (w3, c3) := reRender (component cfg) w2 in
          ((call_clearAsync :: hook_steps) ++ [call_reRender], w3,
           match c3 with
           | Js.throws e => Some e
           | _ => None
           end)%list
      end
  end.

(** Then the body of the test, called on the suite in the world the
    steps before it left; [ran] carries its completion. *)
Inductive lifecycle_end :=
| stopped (steps : list event) (w : World) (e : Js.thrown)
| ran (steps : list event) (w : World) (c : Js.completion).

Definition lifecycle_run (scope : TestScope World) (test : TestCase World)
    (w : World) : lifecycle_end :=
  match setup_run scope w with
  | (steps, w3, Some e) => stopped steps w3 e
  | (steps, w3, None) =>
      let (w4, c4) := f test (self scope) w3 in
      ran (steps ++ [call_f (self scope)]) w4 c4
  end.

End Vocabulary.
End Spec.

(** ** A concrete world, for examples *)
Module Demo.
Import TestRunner.

(** A clock, the number of calls the reporter's [send] has received, and a
    flag that a suite's hook sets for its tests to read. *)
Record app := {
  clock : Z;
  sent : nat;
  prepared : bool
}.

Definition host : Host app := {|
  now := clock;
  date_to_string := fun _ => "Mon Nov 02 2026";
  number_to_string := fun _ => "0.01";
  implicit_globals := false
|}.

Definition start_world : app := {| clock := 1000; sent := 0; prepared := false |}.

Definition tick (ms : Z) (w : app) : app :=
  {| clock := clock w + ms; sent := sent w; prepared := prepared w |}.

(** A call that takes [ms] milliseconds and succeeds. *)
Definition ok (ms : Z) : action app := fun w => (tick ms w, Js.returns).

(** A call whose promise rejects with [new Error(msg)]. *)
Definition fails (msg : string) : action app :=
  fun w => (tick 1 w, Js.rejects (Js.object (Js.str msg))).

(** A hook that marks the app as prepared. *)
Definition prepare (this : Js.ref) : action app :=
  fun w => ({| clock := clock w + 1; sent := sent w; prepared := true |}, Js.returns).

(** A test body that fails unless the hook ran. *)
Definition needs_prepared (this : Js.ref) : action app :=
  fun w =>
    if prepared w then (tick 1 w, Js.returns)
    else (tick 1 w, Js.rejects (Js.object (Js.str "not prepared"))).

(** A [send] that throws on its first call only. *)
Definition flaky_send (p : payload) : action app :=
  fun w =>
    ({| clock := clock w; sent := S (sent w); prepared := prepared w |},
     match sent w with
     | 0 => Js.throws (Js.object (Js.str "socket not open"))
     | S _ => Js.returns
     end).

Definition steady_send (p : payload) : action app :=
  fun w => ({| clock := clock w; sent := S (sent w); prepared := prepared w |},
            Js.returns).

Definition tester : Component app := {| clearAsync := ok 1; reRender := ok 1 |}.

Definition broken_tester : Component app :=
  {| clearAsync := fails "storage unavailable"; reRender := ok 1 |}.

Definition passing (d l : string) (t : option string) : TestCase app :=
  {| describeLabel := d; label := l; tag := t; f := fun _ => ok 5 |}.

Definition failing (d l : string) (t : option string) (msg : string) : TestCase app :=
  {| describeLabel := d; label := l; tag := t; f := fun _ => fails msg |}.

Definition suite (id : Js.ref) (cases : list (TestCase app)) : TestScope app :=
  {| self := id; testCases := cases; beforeEach := None |}.

Definition callback : Reporter app := reporter_function (fun _ => ok 2).

Definition realtime (send : payload -> action app) : Reporter app :=
  reporter_object (Js.str "realtime") (Some (fun _ => ok 2)) (Some send).

Definition config (c : Component app) (suites : list (TestScope app))
    (r : Reporter app) (sendReport : option bool)
    (tags : option (list string)) : Config app :=
  {| component := c; testSuites := suites; reporter := r;
     shouldSendReport := sendReport; filter := tags |}.

(** The suite of the spec's example: A throws "boom", B succeeds. *)
Definition test_A : TestCase app := failing "Suite" "A" None "boom".

Definition test_B : TestCase app := passing "Suite" "B" None.

Definition boom_suite : TestScope app := suite 1 [test_A; test_B].

(** A suite whose hook prepares what its test needs. *)
Definition hooked_test : TestCase app :=
  {| describeLabel := "Hooked"; label := "reads what the hook wrote";
     tag := None; f := needs_prepared |}.

Definition hooked_suite : TestScope app :=
  {| self := 7; testCases := [hooked_test]; beforeEach := Some prepare |}.

Definition smoke_test : TestCase app := passing "Tagged" "A" (Some "smoke").

Definition untagged_test : TestCase app := passing "Tagged" "B" None.

Definition slow_test : TestCase app := passing "Tagged" "C" (Some "slow").

Definition tagged_suite : TestScope app :=
  suite 2 [smoke_test; untagged_test; slow_test].

Definition single_test : TestCase app := passing "Single" "A" None.

Definition single_suite : TestScope app := suite 3 [single_test].

(** The runs used below. *)
Definition boom_run : Config app :=
  config tester [boom_suite] callback None None.

Definition broken_run : Config app :=
  config broken_tester [boom_suite] callback None None.

Definition hooked_run : Config app :=
  config tester [hooked_suite; boom_suite] callback None None.

Definition tagged_run : Config app :=
  config tester [tagged_suite] callback None (Some ["smoke"]).

Definition realtime_run : Config app :=
  config tester [boom_suite] (realtime steady_send) None None.

Definition flaky_run : Config app :=
  config tester [single_suite] (realtime flaky_send) None None.

Definition legacy_realtime_run : Config app :=
  config tester [single_suite] (realtime steady_send) (Some false) None.

Definition no_reporter_run : Config app :=
  config tester [boom_suite] reporter_nullish None None.

Definition no_reporter_no_suite_run : Config app :=
  config tester [] reporter_nullish None None.

(** The state of the first run after the steps that precede the body of
    test A, and the app that body leaves. *)
Definition after_setup : machine app :=
  Eval vm_compute in fst (before_try host boom_run boom_suite (constructed start_world)).

Definition after_boom : app :=
  Eval vm_compute in fst (f test_A (self boom_suite) (world after_setup)).

Definition odd_reporter_run : Config app :=
  config tester [boom_suite] (reporter_object (Js.str "batch") None None) None None.

(** More runs: a deferred reporter, the legacy flag set either way, an
    empty filter, no suite at all, a body that rejects with nothing, a
    [reRender] whose promise rejects, a realtime reporter without
    [onFinish]. *)
Definition deferred : Reporter app :=
  reporter_object (Js.str "deferred") None (Some steady_send).

Definition deferred_run : Config app :=
  config tester [boom_suite] deferred None None.

Definition legacy_true_run : Config app :=
  config tester [boom_suite] callback (Some true) None.

Definition legacy_false_run : Config app :=
  config tester [boom_suite] callback (Some false) None.

Definition empty_filter_run : Config app :=
  config broken_tester [boom_suite] reporter_nullish None (Some []).

Definition no_suites_run : Config app :=
  config tester [] callback None None.

Definition silent_test : TestCase app :=
  {| describeLabel := "Silent"; label := "rejects with nothing"; tag := None;
     f := fun _ w => (tick 1 w, Js.rejects Js.nullish) |}.

Definition silent_suite : TestScope app := suite 4 [silent_test; test_B].

Definition silent_run : Config app :=
  config tester [silent_suite] callback None None.

Definition lazy_tester : Component app :=
  {| clearAsync := ok 1; reRender := fails "render failed" |}.

Definition lazy_run : Config app :=
  config lazy_tester [boom_suite] callback None None.

Definition headless : Reporter app :=
  reporter_object (Js.str "realtime") None (Some steady_send).

Definition headless_run : Config app :=
  config tester [boom_suite] headless None None.

(** Further runs: a filter of two tags over a component whose [clearAsync]
    rejects; a device whose clock is set back while a test runs; a filter
    that no tag of the suite passes. *)
Definition broken_tagged_run : Config app :=
  config broken_tester [tagged_suite] callback None (Some ["smoke"; "slow"]).

Definition rewinding_test : TestCase app :=
  {| describeLabel := "Clock"; label := "is set back while the test runs";
     tag := None; f := fun _ => ok (-5000) |}.

Definition rewinding_suite : TestScope app := suite 5 [rewinding_test].

Definition rewinding_run : Config app :=
  config tester [rewinding_suite] callback None None.

Definition unmatched_filter_run : Config app :=
  config tester [tagged_suite] callback None (Some ["nightly"]).

(** A run of the demo host from a freshly constructed runner. *)
Definition run (cfg : Config app) : machine app * (unit + Js.thrown) :=
  runTestSuites host cfg (constructed start_world).

End Demo.

Import TestRunner Spec.

(** * Properties *)

(** ** Rules for outcomes *)
Section Rules.

Context {World : Type}.

Implicit Types m : machine World.

Lemma wp_ret {A} (a : A) (Q : A -> machine World -> Prop) E m :
  Q a m -> wp (ret a) Q E m.
Proof. exact (fun H => H). Qed.

Lemma wp_throw {A} e (Q : A -> machine World -> Prop) E m :
  E e m -> wp (throw e) Q E m.
Proof. exact (fun H => H). Qed.

Lemma wp_bind {A B} (c : M World A) (k : A -> M World B) Q E m :
  wp c (fun a m' => wp (k a) Q E m') E m -> wp (bind c k) Q E m.
Proof. unfold wp, bind. destruct (c m) as [m' [a | e]]; auto. Qed.

Lemma wp_try_catch {A} (body : M World A) handler Q E m :
  wp body Q (fun e m' => wp (handler e) Q E m') m ->
  wp (try_catch body handler) Q E m.
Proof. unfold wp, try_catch. destruct (body m) as [m' [a | e]]; auto. Qed.

Lemma wp_mono {A} (c : M World A) (Q Q' : A -> machine World -> Prop)
    (E E' : Js.thrown -> machine World -> Prop) m :
  wp c Q E m ->
  (forall a m', Q a m' -> Q' a m') ->
  (forall e m', E e m' -> E' e m') ->
  wp c Q' E' m.
Proof. unfold wp. destruct (c m) as [m' [a | e]]; auto. Qed.

Lemma wp_emit ev (Q : unit -> machine World -> Prop) E m :
  Q tt {| world := world m; results := results m;
          errorCount := errorCount m; trace := trace m ++ [ev] |} ->
  wp (emit ev) Q E m.
Proof. exact (fun H => H). Qed.

Lemma wp_push r (Q : unit -> machine World -> Prop) E m :
  Q tt {| world := world m; results := results m ++ [r];
          errorCount := errorCount m; trace := trace m |} ->
  wp (push r) Q E m.
Proof. exact (fun H => H). Qed.

Lemma wp_increase_errorCount (Q : unit -> machine World -> Prop) E m :
  Q tt {| world := world m; results := results m;
          errorCount := errorCount m + 1; trace := trace m |} ->
  wp increase_errorCount Q E m.
Proof. exact (fun H => H). Qed.

Lemma wp_new_Date host (Q : Z -> machine World -> Prop) E m :
  Q (now host (world m)) m -> wp (new_Date host) Q E m.
Proof. exact (fun H => H). Qed.

Lemma wp_get_results (Q : list Result.t -> machine World -> Prop) E m :
  Q (results m) m -> wp get_results Q E m.
Proof. exact (fun H => H). Qed.

Lemma wp_get_errorCount (Q : nat -> machine World -> Prop) E m :
  Q (errorCount m) m -> wp get_errorCount Q E m.
Proof. exact (fun H => H). Qed.

Lemma wp_message_of e (Q : Js.value -> machine World -> Prop) E m :
  match e with
  | Js.nullish => E (Js.TypeError "Cannot read property 'message' of undefined") m
  | Js.object v => Q v m
  end ->
  wp (message_of e) Q E m.
Proof. destruct e; exact (fun H => H). Qed.

Lemma wp_await (a : action World) (Q : unit -> machine World -> Prop) E m :
  (forall w c,
     a (world m) = (w, c) ->
     match c with
     | Js.returns => Q tt (set_world w m)
     | Js.rejects e => E e (set_world w m)
     | Js.throws e => E e (set_world w m)
     end) ->
  wp (await a) Q E m.
Proof.
  intros H. unfold wp, await.
  destruct (a (world m)) as [w c] eqn:Hcall.
  specialize (H w c eq_refl). destruct c; exact H.
Qed.

Lemma wp_call (a : action World) (Q : unit -> machine World -> Prop) E m :
  (forall w c,
     a (world m) = (w, c) ->
     match c with
     | Js.returns => Q tt (set_world w m)
     | Js.rejects _ => Q tt (set_world w m)
     | Js.throws e => E e (set_world w m)
     end) ->
  wp (call a) Q E m.
Proof.
  intros H. unfold wp, call.
  destruct (a (world m)) as [w c] eqn:Hcall.
  specialize (H w c eq_refl). destruct c; exact H.
Qed.

End Rules.

(** Symbolic execution of a method body, one step at a time. *)
Ltac wp_simpl :=
  cbn beta iota zeta delta [world results errorCount trace set_world negb].

Ltac wp_step :=
  lazymatch goal with
  | |- wp (bind _ _) _ _ _ => apply wp_bind
  | |- wp (try_catch _ _) _ _ _ => apply wp_try_catch
  | |- wp (ret _) _ _ _ => apply wp_ret
  | |- wp (throw _) _ _ _ => apply wp_throw
  | |- wp (emit _) _ _ _ => apply wp_emit
  | |- wp (push _) _ _ _ => apply wp_push
  | |- wp increase_errorCount _ _ _ => apply wp_increase_errorCount
  | |- wp (new_Date _) _ _ _ => apply wp_new_Date
  | |- wp get_results _ _ _ => apply wp_get_results
  | |- wp get_errorCount _ _ _ => apply wp_get_errorCount
  | |- wp (message_of ?e) _ _ _ => apply wp_message_of; destruct e
  | |- wp (await _) _ _ _ =>
      let w := fresh "w" in
      let c := fresh "c" in
      let H := fresh "Hcall" in
      apply wp_await; wp_simpl; intros w c H; destruct c
  | |- wp (call _) _ _ _ =>
      let w := fresh "w" in
      let c := fresh "c" in
      let H := fresh "Hcall" in
      apply wp_call; wp_simpl; intros w c H; destruct c
  | |- wp (match ?x with _ => _ end) _ _ _ => destruct x eqn:?
  | |- wp (send_if_realtime _ _) _ _ _ => unfold send_if_realtime
  | |- wp (call_member _ _ _ _ _) _ _ _ => unfold call_member
  | |- wp (assign_undeclared _ _) _ _ _ => unfold assign_undeclared
  end.

Ltac wp_run := repeat (wp_simpl; wp_step); wp_simpl.

(** A [send] that never throws has not thrown. *)
Ltac absurd_throw :=
  match goal with
  | Hq : forall p, never_throws (?s p), Hc : ?s ?p ?w = (_, Js.throws ?e) |- _ =>
      exfalso; apply (Hq p w e); rewrite Hc; reflexivity
  end.

(** ** Reading traces *)

Lemma collect_app {A} (pick : event -> option A) (t u : list event) :
  collect pick (t ++ u) = (collect pick t ++ collect pick u)%list.
Proof. unfold collect. apply flat_map_app. Qed.

Lemma collect_skip {A} (pick : event -> option A) (u : list event) :
  Forall (fun e => pick e = None) u -> collect pick u = [].
Proof.
  induction 1 as [| e u He _ IH]; simpl; [reflexivity |].
  rewrite He. exact IH.
Qed.

(** ** One test: [runTest] *)
Section RunTest.

Context {World : Type} (host : Host World) (cfg : Config World).

Implicit Types (m : machine World) (scope : TestScope World) (test : TestCase World).

Ltac unfold_runTest := unfold runTest, before_try, try_block, catch_block.

(** Whatever happens, [runTest] only appends to the trace, and only events
    of its own. *)
Lemma runTest_footprint scope test m :
  wp (runTest host cfg scope test)
     (fun _ m' => exists evs, trace m' = (trace m ++ evs)%list /\ Forall runTest_event evs)
     (fun _ m' => exists evs, trace m' = (trace m ++ evs)%list /\ Forall runTest_event evs)
     m.
Proof.
  unfold_runTest. wp_run.
  all: rewrite <- ?app_assoc; simpl; eexists; split; [reflexivity | repeat constructor].
Qed.

(** So any reading of the trace that ignores those events is unchanged. *)
Lemma runTest_collect {A} (pick : event -> option A) scope test m :
  (forall e, runTest_event e -> pick e = None) ->
  wp (runTest host cfg scope test)
     (fun _ m' => collect pick (trace m') = collect pick (trace m))
     (fun _ m' => collect pick (trace m') = collect pick (trace m))
     m.
Proof.
  intros Hpick.
  assert (Hskip : forall m' : machine World,
             (exists evs, trace m' = (trace m ++ evs)%list /\ Forall runTest_event evs) ->
             collect pick (trace m') = collect pick (trace m)).
  { intros m' (evs & -> & Hevs). rewrite collect_app, (collect_skip pick evs).
    - apply app_nil_r.
    - eapply Forall_impl; [| exact Hevs]. exact Hpick. }
  eapply wp_mono; [apply runTest_footprint | |]; intros; auto.
Qed.

Lemma runTest_invocations scope test m :
  wp (runTest host cfg scope test)
     (fun _ m' => invocations (trace m') = invocations (trace m))
     (fun _ m' => invocations (trace m') = invocations (trace m))
     m.
Proof. apply runTest_collect. intros [] H; try reflexivity; destruct H. Qed.

Lemma runTest_deliveries scope test m :
  wp (runTest host cfg scope test)
     (fun _ m' => deliveries (trace m') = deliveries (trace m))
     (fun _ m' => deliveries (trace m') = deliveries (trace m))
     m.
Proof.
  apply runTest_collect. intros [] H; try reflexivity; try destruct H.
  destruct p; [reflexivity | destruct H].
Qed.

Lemma failures_snoc rs r :
  failures (rs ++ [r]) = failures rs + (if Result.passed r then 0 else 1).
Proof.
  unfold failures. rewrite filter_app, length_app. simpl.
  unfold Result.failed. destruct (Result.passed r); reflexivity.
Qed.

(** The counter and the failed results move together when [runTest]
    returns; when it throws, the counter has not moved and at most one
    failed result has been added. *)
Lemma runTest_counts scope test m :
  wp (runTest host cfg scope test)
     (fun _ m' => exists k, errorCount m' = errorCount m + k /\
                            failures (results m') = failures (results m) + k)
     (fun _ m' => errorCount m' = errorCount m /\
                  (failures (results m') = failures (results m) \/
                   failures (results m') = failures (results m) + 1))
     m.
Proof.
  unfold_runTest. wp_run.
  all: rewrite ?failures_snoc; simpl.
  all: try (split; [reflexivity | lia]).
  all: try (exists 0; lia).
  all: try (exists 1; lia).
Qed.

(** Without a reporter, [runTest] cannot return. *)
Lemma runTest_nullish_reporter scope test m :
  reporter cfg = reporter_nullish ->
  wp (runTest host cfg scope test) (fun _ _ => False) (fun _ _ => True) m.
Proof.
  intros Hr. unfold_runTest. unfold send_if_realtime. rewrite Hr.
  wp_run. all: exact I.
Qed.

(** With a reporter whose [send] does not throw, a call of [runTest] that
    returns has recorded exactly one result, the test's own, and has
    streamed it once if the reporter is a realtime one; a call that throws
    has recorded and streamed nothing. *)
Lemma runTest_one_result scope test m :
  quiet_send cfg ->
  wp (runTest host cfg scope test)
     (fun _ m' =>
        exists r,
          results m' = (results m ++ [r])%list /\
          Result.description r = description_of test /\
          Result.describeLabel r = describeLabel test /\
          reporter_calls (trace m') =
          (reporter_calls (trace m)
           ++ if is_realtime cfg then [call_send (fragment_of r)] else [])%list)
     (fun _ m' =>
        results m' = results m /\
        reporter_calls (trace m') = reporter_calls (trace m))
     m.
Proof.
  unfold quiet_send, is_realtime. intros Hq.
  unfold_runTest. unfold send_if_realtime.
  destruct (reporter cfg) as [g | | type onFinish send]; [| destruct Hq |].
  - wp_run.
    all: unfold reporter_calls; rewrite ?collect_app; simpl; rewrite ?app_nil_r.
    all: try (split; reflexivity).
    all: eexists; repeat split; simpl; rewrite ?app_nil_r; reflexivity.
  - destruct (loose_eq type "realtime").
    + destruct (Hq eq_refl) as (s & -> & Hs). wp_run.
      all: try absurd_throw.
      all: unfold reporter_calls; rewrite ?collect_app; simpl; rewrite ?app_nil_r.
      all: try (split; reflexivity).
      all: eexists; repeat split; simpl; rewrite ?app_nil_r; reflexivity.
    + wp_run.
      all: unfold reporter_calls; rewrite ?collect_app; simpl; rewrite ?app_nil_r.
      all: try (split; reflexivity).
      all: eexists; repeat split; simpl; rewrite ?app_nil_r; reflexivity.
Qed.

(** The lifecycle steps of one call, in order. *)
Lemma runTest_lifecycle scope test m :
  wp (runTest host cfg scope test)
     (fun _ m' => lifecycle (trace m') = (lifecycle (trace m) ++ lifecycle_of scope)%list)
     (fun _ m' => exists steps,
                    lifecycle (trace m') = (lifecycle (trace m) ++ steps)%list /\
                    prefix steps (lifecycle_of scope))
     m.
Proof.
  unfold_runTest. unfold lifecycle_of, prefix. wp_run.
  all: unfold lifecycle; rewrite ?collect_app; simpl; rewrite ?app_nil_r.
  all: rewrite <- ?app_assoc; simpl.
  all: try reflexivity.
  all: eexists; split; [reflexivity | eexists; simpl; reflexivity].
Qed.

(** Time does not go backwards across a call of [runTest] when it does not
    in the calls it makes. *)
Lemma runTest_keeps_time scope test m t0 :
  not_realtime cfg ->
  steady_clock host cfg ->
  In scope (testSuites cfg) ->
  In test (testCases scope) ->
  (t0 <= now host (world m))%Z ->
  wp (runTest host cfg scope test)
     (fun _ m' => (t0 <= now host (world m'))%Z)
     (fun _ m' => (t0 <= now host (world m'))%Z)
     m.
Proof.
  unfold not_realtime. intros Hnr Hclock Hscope Htest Ht0.
  pose proof (Hclock _ (collab_clearAsync cfg)) as Hclear.
  pose proof (Hclock _ (collab_reRender cfg)) as Hrender.
  pose proof (Hclock _ (collab_f cfg scope test Hscope Htest)) as Hbody.
  assert (Hhook : forall hook, beforeEach scope = Some hook ->
                               keeps_time host (hook (self scope))).
  { intros hook Hh. apply Hclock. eapply collab_beforeEach; eassumption. }
  unfold_runTest. unfold send_if_realtime.
  destruct (reporter cfg) as [g | | type onFinish send]; [| destruct Hnr |].
  2: rewrite Hnr.
  all: wp_run.
  all: try match goal with
            | Hh : forall hook, Some ?h = Some hook -> _ |- _ =>
                pose proof (Hh h eq_refl)
            end.
  all: repeat match goal with
              | Hk : keeps_time host ?a, Hc : ?a ?w0 = (?w, _) |- _ =>
                  let H := fresh "Hle" in
                  pose proof (Hk w0) as H; rewrite Hc in H; simpl in H; clear Hc
              end.
  all: lia.
Qed.

(** The steps before the [try] leave the runner's fields alone. *)
Lemma before_try_frame scope m :
  wp (before_try host cfg scope)
     (fun start m' => start = now host (world m) /\
                      results m' = results m /\ errorCount m' = errorCount m)
     (fun _ m' => results m' = results m /\ errorCount m' = errorCount m)
     m.
Proof. unfold before_try. wp_run. all: auto. Qed.

End RunTest.

(** ** The two loops *)
Section Loops.

Context {World : Type} (host : Host World) (cfg : Config World).

Implicit Types (m : machine World) (acc : list (selection World)).

(** An invariant indexed by the tests selected so far, and what is known
    when the call for the last selected test throws. *)
Variable Inv : list (selection World) -> machine World -> Prop.
Variable Exc : list (selection World) -> Js.thrown -> machine World -> Prop.

Hypothesis step :
  forall acc i j scope test m,
    In scope (testSuites cfg) ->
    In test (testCases scope) ->
    should_run cfg (tag test) = true ->
    Inv acc m ->
    wp (bind (emit (invoke_runTest i j)) (fun _ => runTest host cfg scope test))
       (fun _ => Inv (acc ++ [((i, j), (scope, test))]))
       (Exc (acc ++ [((i, j), (scope, test))]))
       m.

Lemma for_testCases_rule i scope :
  In scope (testSuites cfg) ->
  forall cases j acc m,
    incl cases (testCases scope) ->
    Inv acc m ->
    wp (for_testCases host cfg i scope j cases)
       (fun _ => Inv (acc ++ selected_testCases cfg i scope j cases))
       (fun e m' => exists pre,
                      prefix pre (selected_testCases cfg i scope j cases) /\
                      pre <> [] /\ Exc (acc ++ pre) e m')
       m.
Proof.
  intros Hscope. induction cases as [| test rest IH]; intros j acc m Hincl Hinv.
  - simpl. apply wp_ret. rewrite app_nil_r. exact Hinv.
  - assert (Htest : In test (testCases scope)) by (apply Hincl; left; reflexivity).
    assert (Hrest : incl rest (testCases scope))
      by (intros x Hx; apply Hincl; right; exact Hx).
    simpl. apply wp_bind.
    destruct (should_run cfg (tag test)) eqn:Hrun.
    + eapply wp_mono; [apply (step acc i j scope test m); assumption | |].
      * intros ? m' Hinv'. cbv beta.
        eapply wp_mono; [apply (IH (S j) _ m' Hrest Hinv') | |].
        -- intros ? m''. cbv beta. rewrite <- app_assoc. exact (fun H => H).
        -- intros e m'' (pre & [rest' Hpre] & Hne & Hexc). cbv beta.
           exists ((((i, j), (scope, test)) :: pre)). repeat split.
           ++ exists rest'. simpl. rewrite Hpre. reflexivity.
           ++ discriminate.
           ++ replace (acc ++ ((i, j), (scope, test)) :: pre)%list
                with ((acc ++ [((i, j), (scope, test))]) ++ pre)%list
                by (rewrite <- app_assoc; reflexivity).
              exact Hexc.
      * intros e m' Hexc. cbv beta.
        exists [((i, j), (scope, test))]. repeat split.
        -- eexists. simpl. reflexivity.
        -- discriminate.
        -- exact Hexc.
    + apply wp_ret. simpl. apply (IH (S j) acc m Hrest Hinv).
Qed.

Lemma for_testSuites_rule :
  forall suites i acc m,
    incl suites (testSuites cfg) ->
    Inv acc m ->
    wp (for_testSuites host cfg i suites)
       (fun _ => Inv (acc ++ selected_testSuites cfg i suites))
       (fun e m' => exists pre,
                      prefix pre (selected_testSuites cfg i suites) /\
                      pre <> [] /\ Exc (acc ++ pre) e m')
       m.
Proof.
  induction suites as [| scope rest IH]; intros i acc m Hincl Hinv.
  - simpl. apply wp_ret. rewrite app_nil_r. exact Hinv.
  - assert (Hscope : In scope (testSuites cfg)) by (apply Hincl; left; reflexivity).
    assert (Hrest : incl rest (testSuites cfg))
      by (intros x Hx; apply Hincl; right; exact Hx).
    simpl. apply wp_bind.
    eapply wp_mono;
      [apply (for_testCases_rule i scope Hscope (testCases scope) 0 acc m
                (incl_refl _) Hinv) | |].
    + intros ? m' Hinv'. cbv beta.
      eapply wp_mono; [apply (IH (S i) _ m' Hrest Hinv') | |].
      * intros ? m''. cbv beta. rewrite <- app_assoc. exact (fun H => H).
      * intros e m'' (pre & [rest' Hpre] & Hne & Hexc). cbv beta.
        exists (selected_testCases cfg i scope 0 (testCases scope) ++ pre)%list.
        repeat split.
        -- exists rest'. rewrite Hpre, <- app_assoc. reflexivity.
        -- intros Hnil. apply app_eq_nil in Hnil. tauto.
        -- rewrite app_assoc. exact Hexc.
    + intros e m' (pre & [rest' Hpre] & Hne & Hexc). cbv beta.
      exists pre. repeat split.
      * exists (rest' ++ selected_testSuites cfg (S i) rest)%list.
        rewrite Hpre, <- app_assoc. reflexivity.
      * exact Hne.
      * exact Hexc.
Qed.

(** The loops as [runTestSuites] enters them: after the start line. *)
Lemma run_cases_rule m :
  Inv [] {| world := world m; results := results m; errorCount := errorCount m;
            trace := trace m ++
                     [console_log ("Cavy test suite started at " ++
                                   date_to_string host (now host (world m)) ++ ".")] |} ->
  wp (run_cases host cfg)
     (fun start m' => start = now host (world m) /\ Inv (selected cfg) m')
     (fun e m' => exists pre, prefix pre (selected cfg) /\ pre <> [] /\ Exc pre e m')
     m.
Proof.
  intros Hinv. unfold run_cases.
  apply wp_bind, wp_new_Date, wp_bind, wp_emit, wp_bind.
  eapply wp_mono;
    [apply (for_testSuites_rule (testSuites cfg) 0 [] _ (incl_refl _) Hinv) | |].
  - intros ? m' H. apply wp_ret. split; [reflexivity | exact H].
  - intros e m' H. exact H.
Qed.

End Loops.

(** ** What the loops do to the runner *)
Section Cases.

Context {World : Type} (host : Host World) (cfg : Config World).

Implicit Types (m : machine World).

(** The calls of [runTest] are those for the selected tests, in order; if
    one of them throws, they stop there. *)
Lemma run_cases_invocations m :
  wp (run_cases host cfg)
     (fun _ m' =>
        invocations (trace m') = (invocations (trace m) ++ map index_of (selected cfg))%list)
     (fun _ m' =>
        exists pre, prefix pre (selected cfg) /\ pre <> [] /\
                    invocations (trace m') = (invocations (trace m) ++ map index_of pre)%list)
     m.
Proof.
  pose (Inv := fun (acc : list (selection World)) (m' : machine World) =>
                 invocations (trace m') = (invocations (trace m) ++ map index_of acc)%list).
  eapply wp_mono;
    [apply (run_cases_rule host cfg Inv (fun acc _ => Inv acc)) | |].
  - intros acc i j scope test m0 _ _ _ Hinv.
    apply wp_bind, wp_emit.
    eapply wp_mono; [apply runTest_invocations | |];
      cbv beta; unfold Inv; intros ? m' ->; simpl;
      unfold invocations in *; rewrite collect_app, Hinv, map_app, <- app_assoc;
      reflexivity.
  - unfold Inv. simpl. unfold invocations. rewrite collect_app. simpl.
    rewrite app_nil_r. reflexivity.
  - intros start m' [_ H]. exact H.
  - intros e m' H. exact H.
Qed.

(** The hand-over calls ([reporter(report)], [onFinish(report)],
    [send(report)]) are never made from inside the loops. *)
Lemma run_cases_deliveries m :
  wp (run_cases host cfg)
     (fun _ m' => deliveries (trace m') = deliveries (trace m))
     (fun _ m' => deliveries (trace m') = deliveries (trace m))
     m.
Proof.
  pose (Inv := fun (acc : list (selection World)) (m' : machine World) =>
                 deliveries (trace m') = deliveries (trace m)).
  eapply wp_mono;
    [apply (run_cases_rule host cfg Inv (fun acc _ => Inv acc)) | |].
  - intros acc i j scope test m0 _ _ _ Hinv.
    apply wp_bind, wp_emit.
    eapply wp_mono; [apply runTest_deliveries | |];
      cbv beta; unfold Inv; intros ? m' ->; simpl;
      unfold deliveries in *; rewrite collect_app, Hinv; simpl;
      apply app_nil_r.
  - unfold Inv. simpl. unfold deliveries. rewrite collect_app. simpl.
    apply app_nil_r.
  - intros start m' [_ H]. exact H.
  - intros e m' (pre & _ & _ & H). exact H.
Qed.

(** The counter stays equal to the number of failed results as long as the
    calls of [runTest] return; the call that throws can leave it one
    behind. *)
Lemma run_cases_counts m :
  balanced m ->
  wp (run_cases host cfg)
     (fun _ m' => balanced m')
     (fun _ m' => errorCount m' <= failures (results m') <= errorCount m' + 1)
     m.
Proof.
  intros Hm.
  pose (Inv := fun (acc : list (selection World)) (m' : machine World) =>
                 balanced m').
  pose (Exc := fun (acc : list (selection World)) (e : Js.thrown)
                   (m' : machine World) =>
                 errorCount m' <= failures (results m') <= errorCount m' + 1).
  eapply wp_mono; [apply (run_cases_rule host cfg Inv Exc) | |].
  - intros acc i j scope test m0 _ _ _ Hinv.
    apply wp_bind, wp_emit.
    eapply wp_mono; [apply runTest_counts | |];
      cbv beta; unfold Inv, Exc, balanced in *; simpl.
    + intros ? m' (k & Hc & Hf). lia.
    + intros ? m' (Hc & Hf). lia.
  - exact Hm.
  - intros start m' [_ H]. exact H.
  - intros e m' (pre & _ & _ & H). exact H.
Qed.

(** With a [send] that does not throw, the loops record one result per
    selected test, in order, and a realtime reporter is sent each of them,
    in order, and nothing else. *)
Lemma run_cases_results m :
  quiet_send cfg ->
  wp (run_cases host cfg)
     (fun _ m' =>
        exists rs,
          results m' = (results m ++ rs)%list /\
          map Result.description rs = map (fun s => description_of (test_of s)) (selected cfg) /\
          reporter_calls (trace m') =
          (reporter_calls (trace m)
           ++ if is_realtime cfg
              then map (fun r => call_send (fragment_of r)) rs
              else [])%list)
     (fun _ _ => True)
     m.
Proof.
  intros Hq.
  pose (Inv := fun (acc : list (selection World)) (m' : machine World) =>
     exists rs,
       results m' = (results m ++ rs)%list /\
       map Result.description rs = map (fun s => description_of (test_of s)) acc /\
       reporter_calls (trace m') =
       (reporter_calls (trace m)
        ++ if is_realtime cfg
           then map (fun r => call_send (fragment_of r)) rs
           else [])%list).
  eapply wp_mono;
    [apply (run_cases_rule host cfg Inv (fun _ _ _ => True)) | |].
  - intros acc i j scope test m0 _ _ _ (rs & Hrs & Hd & Hc).
    apply wp_bind, wp_emit.
    eapply wp_mono; [apply (runTest_one_result host cfg scope test _ Hq) | |];
      cbv beta; [| auto].
    intros ? m' (r & Hr & Hdr & _ & Hcr). simpl in *.
    exists (rs ++ [r])%list. repeat split.
    + rewrite Hr, Hrs, <- app_assoc. reflexivity.
    + rewrite !map_app, Hd. simpl. rewrite Hdr. reflexivity.
    + rewrite Hcr. unfold reporter_calls in *. rewrite collect_app, Hc. simpl.
      rewrite app_nil_r, <- app_assoc.
      destruct (is_realtime cfg); [rewrite map_app |]; reflexivity.
  - exists []. simpl. rewrite !app_nil_r. repeat split.
    unfold reporter_calls. rewrite collect_app. simpl.
    destruct (is_realtime cfg); rewrite !app_nil_r; reflexivity.
  - intros start m' [_ H]. exact H.
  - auto.
Qed.

(** Time does not go backwards across the loops when it does not in the
    collaborators. *)
Lemma run_cases_keeps_time m :
  not_realtime cfg ->
  steady_clock host cfg ->
  wp (run_cases host cfg)
     (fun start m' => start = now host (world m) /\ (start <= now host (world m'))%Z)
     (fun _ m' => (now host (world m) <= now host (world m'))%Z)
     m.
Proof.
  intros Hnr Hclock.
  pose (Inv := fun (acc : list (selection World)) (m' : machine World) =>
                 (now host (world m) <= now host (world m'))%Z).
  eapply wp_mono;
    [apply (run_cases_rule host cfg Inv (fun acc _ => Inv acc)) | |].
  - intros acc i j scope test m0 Hscope Htest _ Hinv.
    apply wp_bind, wp_emit.
    apply runTest_keeps_time; assumption.
  - unfold Inv. simpl. lia.
  - intros start m' [-> H]. split; [reflexivity | exact H].
  - intros e m' (pre & _ & _ & H). exact H.
Qed.

(** Without a reporter the loops return only if they selected nothing. *)
Lemma run_cases_nullish_reporter m :
  reporter cfg = reporter_nullish ->
  wp (run_cases host cfg) (fun _ _ => selected cfg = []) (fun _ _ => True) m.
Proof.
  intros Hr.
  pose (Inv := fun (acc : list (selection World)) (m' : machine World) =>
                 acc = []).
  eapply wp_mono;
    [apply (run_cases_rule host cfg Inv (fun _ _ _ => True)) | |].
  - intros acc i j scope test m0 _ _ _ _.
    apply wp_bind, wp_emit.
    eapply wp_mono; [apply (runTest_nullish_reporter host cfg scope test _ Hr) | |];
      cbv beta; [intros ? ? [] | auto].
  - reflexivity.
  - intros start m' [_ H]. exact H.
  - auto.
Qed.

(** When the loops return, every selected test has gone through its whole
    lifecycle, one test after the other. *)
Lemma run_cases_lifecycle m :
  wp (run_cases host cfg)
     (fun _ m' =>
        lifecycle (trace m') =
        (lifecycle (trace m)
         ++ flat_map (fun s => lifecycle_of (scope_of s)) (selected cfg))%list)
     (fun _ _ => True)
     m.
Proof.
  pose (Inv := fun (acc : list (selection World)) (m' : machine World) =>
     lifecycle (trace m') =
     (lifecycle (trace m) ++ flat_map (fun s => lifecycle_of (scope_of s)) acc)%list).
  eapply wp_mono;
    [apply (run_cases_rule host cfg Inv (fun _ _ _ => True)) | |].
  - intros acc i j scope test m0 _ _ _ Hinv.
    apply wp_bind, wp_emit.
    eapply wp_mono; [apply runTest_lifecycle | |]; cbv beta; [| auto].
    unfold Inv. intros ? m' ->. simpl.
    unfold lifecycle in *. rewrite collect_app, Hinv. simpl.
    rewrite flat_map_app. simpl. rewrite !app_nil_r, <- app_assoc. reflexivity.
  - unfold Inv. simpl. unfold lifecycle. rewrite collect_app. simpl.
    rewrite !app_nil_r. reflexivity.
  - intros start m' [_ H]. exact H.
  - auto.
Qed.

End Cases.

(** ** What the filter selects *)
Section Selection.

Context {World : Type} (cfg : Config World).

Implicit Types (s : selection World) (scope : TestScope World)
  (suites : list (TestScope World)) (cases : list (TestCase World)).

Lemma should_run_no_filter tag :
  filter cfg = None -> should_run cfg tag = true.
Proof. unfold should_run. intros ->. reflexivity. Qed.

Lemma includes_In arr tag :
  includes arr tag = true <-> exists t, tag = Some t /\ In t arr.
Proof.
  unfold includes. destruct tag as [t |].
  - rewrite existsb_exists. split.
    + intros (x & Hx & Heq). apply String.eqb_eq in Heq. subst x. eauto.
    + intros (t' & [= <-] & Hin). exists t. split; [exact Hin | apply String.eqb_refl].
  - split; [discriminate | intros (t & [=] & _)].
Qed.

Lemma should_run_filter arr tag :
  filter cfg = Some arr ->
  (should_run cfg tag = true <-> exists t, tag = Some t /\ In t arr).
Proof.
  unfold should_run. intros ->. simpl. apply includes_In.
Qed.

Lemma selected_testCases_filter i scope cases j :
  selected_testCases cfg i scope j cases =
  List.filter (passes cfg) (declared_testCases i scope j cases).
Proof.
  revert j. induction cases as [| test rest IH]; intros j; simpl; [reflexivity |].
  unfold passes at 1. unfold test_of. simpl. rewrite IH.
  destruct (should_run cfg (tag test)); reflexivity.
Qed.

Lemma selected_testSuites_filter suites i :
  selected_testSuites cfg i suites =
  List.filter (passes cfg) (declared_testSuites i suites).
Proof.
  revert i. induction suites as [| scope rest IH]; intros i; simpl; [reflexivity |].
  rewrite filter_app, IH, selected_testCases_filter. reflexivity.
Qed.

(** The selected tests are the declared ones that pass the filter, in the
    order of declaration. *)
Lemma selected_filter :
  selected cfg = List.filter (passes cfg) (declared cfg).
Proof. apply selected_testSuites_filter. Qed.

Lemma selected_no_filter :
  filter cfg = None -> selected cfg = declared cfg.
Proof.
  intros Hf. rewrite selected_filter.
  apply forallb_filter_id, forallb_forall. intros s _.
  apply should_run_no_filter, Hf.
Qed.

(** Where the declared tests sit. *)
Lemma declared_testCases_In i scope cases j s :
  In s (declared_testCases i scope j cases) <->
  exists k, index_of s = (i, j + k) /\ scope_of s = scope /\
            nth_error cases k = Some (test_of s).
Proof.
  revert j. induction cases as [| test rest IH]; intros j; simpl.
  - split; [intros [] | intros (k & _ & _ & Hk); destruct k; discriminate].
  - rewrite IH. split.
    + intros [<- | (k & Hi & Hs & Hk)].
      * exists 0. rewrite Nat.add_0_r. auto.
      * exists (S k). rewrite Nat.add_succ_r. auto.
    + intros ([| k] & Hi & Hs & Hk).
      * left. destruct s as [p [sc t]]. unfold index_of, scope_of, test_of in *.
        simpl in *. rewrite Nat.add_0_r in Hi. congruence.
      * right. exists k. rewrite Nat.add_succ_r in Hi. auto.
Qed.

Lemma declared_testSuites_In suites i s :
  In s (declared_testSuites i suites) <->
  exists k j, index_of s = (i + k, j) /\
              nth_error suites k = Some (scope_of s) /\
              nth_error (testCases (scope_of s)) j = Some (test_of s).
Proof.
  revert i. induction suites as [| scope rest IH]; intros i; simpl.
  - split; [intros [] | intros (k & j & _ & Hk & _); destruct k; discriminate].
  - rewrite in_app_iff, IH, declared_testCases_In. split.
    + intros [(j & Hi & Hs & Hj) | (k & j & Hi & Hk & Hj)].
      * exists 0, j. rewrite Nat.add_0_r. subst scope. auto.
      * exists (S k), j. rewrite Nat.add_succ_r. auto.
    + intros ([| k] & j & Hi & Hk & Hj).
      * left. exists j. rewrite Nat.add_0_r in Hi. simpl in Hk.
        injection Hk as Hk. rewrite <- Hk in *. auto.
      * right. exists k, j. rewrite Nat.add_succ_r in Hi. auto.
Qed.

(** A test is declared at indices [(i, j)] exactly when it is
    [testSuites[i].testCases[j]]. *)
Lemma declared_In i j scope test :
  In ((i, j), (scope, test)) (declared cfg) <->
  nth_error (testSuites cfg) i = Some scope /\
  nth_error (testCases scope) j = Some test.
Proof.
  unfold declared. rewrite declared_testSuites_In.
  unfold index_of, scope_of, test_of. simpl. split.
  - intros (k & j' & [= -> ->] & Hk & Hj). auto.
  - intros [Hi Hj]. exists i, j. auto.
Qed.

Lemma selected_In i j scope test :
  In ((i, j), (scope, test)) (selected cfg) <->
  nth_error (testSuites cfg) i = Some scope /\
  nth_error (testCases scope) j = Some test /\
  should_run cfg (tag test) = true.
Proof.
  rewrite selected_filter, filter_In, declared_In. unfold passes, test_of. simpl.
  tauto.
Qed.

(** *** The order of the loops *)

Lemma sorted_app {A} (R : A -> A -> Prop) (l1 l2 : list A) :
  StronglySorted R l1 ->
  StronglySorted R l2 ->
  (forall x y, In x l1 -> In y l2 -> R x y) ->
  StronglySorted R (l1 ++ l2).
Proof.
  intros H1 H2 H12. induction H1 as [| a l1 Hs IH Ha]; simpl; [exact H2 |].
  constructor.
  - apply IH. intros x y Hx Hy. apply H12; [right |]; assumption.
  - apply Forall_app. split; [exact Ha |].
    apply Forall_forall. intros y Hy. apply H12; [left; reflexivity | exact Hy].
Qed.

Lemma sorted_filter {A B} (R : B -> B -> Prop) (g : A -> B) (p : A -> bool) l :
  StronglySorted R (map g l) -> StronglySorted R (map g (List.filter p l)).
Proof.
  induction l as [| a l IH]; simpl; intros H; [constructor |].
  apply StronglySorted_inv in H. destruct H as [Hs Ha].
  destruct (p a); simpl; [constructor |]; auto.
  rewrite Forall_forall in *. intros y Hy. apply Ha.
  apply in_map_iff in Hy. destruct Hy as (x & <- & Hx).
  apply in_map, (proj1 (filter_In p x l)), Hx.
Qed.

Lemma before_irrefl p : ~ before p p.
Proof. unfold before. lia. Qed.

Lemma sorted_NoDup (l : list (nat * nat)) : StronglySorted before l -> NoDup l.
Proof.
  induction 1 as [| a l Hs IH Ha]; constructor; [| exact IH].
  intros Hin. rewrite Forall_forall in Ha. exact (before_irrefl a (Ha a Hin)).
Qed.

Lemma declared_testCases_sorted i scope cases j :
  StronglySorted before (map index_of (declared_testCases i scope j cases)).
Proof.
  revert j. induction cases as [| test rest IH]; intros j; simpl; constructor.
  - apply IH.
  - apply Forall_forall. intros p Hp.
    apply in_map_iff in Hp. destruct Hp as (s & <- & Hs).
    apply declared_testCases_In in Hs. destruct Hs as (k & -> & _).
    unfold before, index_of. simpl. lia.
Qed.

Lemma declared_testSuites_sorted suites i :
  StronglySorted before (map index_of (declared_testSuites i suites)).
Proof.
  revert i. induction suites as [| scope rest IH]; intros i; simpl; [constructor |].
  rewrite map_app. apply sorted_app.
  - apply declared_testCases_sorted.
  - apply IH.
  - intros p q Hp Hq.
    apply in_map_iff in Hp. destruct Hp as (s & <- & Hs).
    apply in_map_iff in Hq. destruct Hq as (s' & <- & Hs').
    apply declared_testCases_In in Hs. destruct Hs as (k & -> & _).
    apply declared_testSuites_In in Hs'. destruct Hs' as (k' & j' & -> & _).
    unfold before. simpl. lia.
Qed.

(** Suite after suite, and test after test inside a suite. *)
Lemma declared_sorted :
  StronglySorted before (map index_of (declared cfg)).
Proof. apply declared_testSuites_sorted. Qed.

Lemma selected_sorted :
  StronglySorted before (map index_of (selected cfg)).
Proof. rewrite selected_filter. apply sorted_filter, declared_sorted. Qed.

End Selection.

(** ** After the loops: the report *)
Section Finish.

Context {World : Type} (host : Host World) (cfg : Config World).

Implicit Types (m : machine World).

Lemma wp_returns {A} (c : M World A) Q E m a :
  wp c Q E m -> snd (c m) = inl a -> Q a (fst (c m)).
Proof. unfold wp. destruct (c m) as [m' [a' | e]]; simpl; intros H [= <-]; exact H. Qed.

Lemma wp_always {A} (c : M World A) (P : machine World -> Prop) m :
  wp c (fun _ => P) (fun _ => P) m -> P (fst (c m)).
Proof. unfold wp. destruct (c m) as [m' [a' | e']]; simpl; auto. Qed.

Lemma runTestSuites_continues m m1 start :
  run_cases host cfg m = (m1, inl start) ->
  runTestSuites host cfg m = after_cases host cfg start m1.
Proof. intros H. unfold runTestSuites, bind. rewrite H. reflexivity. Qed.

Lemma runTestSuites_aborts m m1 e :
  run_cases host cfg m = (m1, inr e) ->
  runTestSuites host cfg m = (m1, inr e).
Proof. intros H. unfold runTestSuites, bind. rewrite H. reflexivity. Qed.

Ltac unfold_after := unfold after_cases, send_report.

(** Nothing after the loops touches the results or the counter, or calls
    [runTest]. *)
Lemma after_cases_frame start m :
  wp (after_cases host cfg start)
     (fun _ m' => results m' = results m /\ errorCount m' = errorCount m /\
                  invocations (trace m') = invocations (trace m) /\
                  lifecycle (trace m') = lifecycle (trace m))
     (fun _ m' => results m' = results m /\ errorCount m' = errorCount m /\
                  invocations (trace m') = invocations (trace m) /\
                  lifecycle (trace m') = lifecycle (trace m))
     m.
Proof.
  unfold_after. wp_run.
  all: unfold invocations, lifecycle; rewrite ?collect_app; simpl;
    rewrite ?app_nil_r; auto.
Qed.

(** A function reporter is called with the report, last. *)
Lemma after_cases_callback g start m :
  reporter cfg = reporter_function g ->
  shouldSendReport cfg = None ->
  wp (after_cases host cfg start)
     (fun _ m' => trace m' = (trace m ++ [console_log (stop_line host start (now host (world m)));
                                          call_reporter (report_of host start m)])%list)
     (fun _ m' => trace m' = (trace m ++ [console_log (stop_line host start (now host (world m)));
                                          call_reporter (report_of host start m)])%list)
     m.
Proof.
  intros Hr Hs. unfold_after. rewrite Hr, Hs. wp_run.
  all: rewrite <- app_assoc; reflexivity.
Qed.

(** A realtime reporter gets the report through [onFinish], last. *)
Lemma after_cases_realtime type onFinish send start m :
  reporter cfg = reporter_object type (Some onFinish) send ->
  loose_eq type "realtime" = true ->
  shouldSendReport cfg = None ->
  wp (after_cases host cfg start)
     (fun _ m' => trace m' = (trace m ++ [console_log (stop_line host start (now host (world m)));
                                          call_onFinish (report_of host start m)])%list)
     (fun _ m' => trace m' = (trace m ++ [console_log (stop_line host start (now host (world m)));
                                          call_onFinish (report_of host start m)])%list)
     m.
Proof.
  intros Hr Ht Hs. unfold_after. rewrite Hr, Hs, Ht. wp_run.
  all: rewrite <- app_assoc; reflexivity.
Qed.

(** With [sendReport] false the run ends on the deprecation warning. *)
Lemma after_cases_legacy_false start m :
  shouldSendReport cfg = Some false ->
  after_cases host cfg start m =
  ({| world := world m; results := results m; errorCount := errorCount m;
      trace := trace m ++ [console_log (stop_line host start (now host (world m)));
                           console_warn deprecation_message] |}, inl tt).
Proof.
  intros Hs. unfold after_cases, bind, new_Date, emit. rewrite Hs. simpl.
  rewrite <- app_assoc. reflexivity.
Qed.

(** An object of neither known type receives nothing; whether the
    diagnostic gets logged depends on the assignment of line 96. *)
Lemma after_cases_unrecognised start m :
  unrecognised cfg ->
  shouldSendReport cfg <> Some false ->
  wp (after_cases host cfg start)
     (fun _ m' => reporter_calls (trace m') = reporter_calls (trace m) /\
                  implicit_globals host = true /\
                  logs (trace m') =
                  (logs (trace m) ++ [stop_line host start (now host (world m));
                                      invalid_reporter_message])%list)
     (fun e m' => reporter_calls (trace m') = reporter_calls (trace m) /\
                  implicit_globals host = false /\
                  e = Js.ReferenceError "message is not defined" /\
                  logs (trace m') =
                  (logs (trace m) ++ [stop_line host start (now host (world m))])%list)
     m.
Proof.
  unfold unrecognised. intros Hu Hs. unfold_after.
  destruct (reporter cfg) as [g | | type onFinish send];
    [destruct Hu | destruct Hu |].
  destruct Hu as [Hrt Hdf]. rewrite Hrt, Hdf.
  destruct (shouldSendReport cfg) as [[|] |]; [| congruence |].
  all: wp_run.
  all: unfold reporter_calls, logs; rewrite ?collect_app;
    cbn [collect flat_map app reporter_call logged];
    rewrite ?app_nil_r, <- ?app_assoc; auto.
Qed.

(** Whatever the flag and the reporter, an object of neither known type is
    never called. *)
Lemma after_cases_unrecognised_calls start m :
  unrecognised cfg ->
  wp (after_cases host cfg start)
     (fun _ m' => reporter_calls (trace m') = reporter_calls (trace m))
     (fun _ m' => reporter_calls (trace m') = reporter_calls (trace m))
     m.
Proof.
  unfold unrecognised. intros Hu. unfold_after.
  destruct (reporter cfg) as [g | | type onFinish send];
    [destruct Hu | destruct Hu |].
  destruct Hu as [Hrt Hdf]. rewrite Hrt, Hdf.
  wp_run.
  all: unfold reporter_calls; rewrite ?collect_app; simpl;
    rewrite ?app_nil_r; auto.
Qed.

(** Without a reporter the hand-over raises, unless the legacy flag has
    ended the run before. *)
Lemma after_cases_nullish_reporter start m :
  reporter cfg = reporter_nullish ->
  shouldSendReport cfg <> Some false ->
  wp (after_cases host cfg start)
     (fun _ _ => False) (fun e _ => e = type_of_nullish) m.
Proof.
  intros Hr Hs. unfold_after. rewrite Hr.
  destruct (shouldSendReport cfg) as [[|] |]; [| congruence |].
  all: wp_run; reflexivity.
Qed.

End Finish.

(** * The claims *)

(** ** Failure containment *)
Section Containment.

Context {World : Type} (host : Host World) (cfg : Config World).

Implicit Types (m : machine World) (scope : TestScope World) (test : TestCase World).

(** An error of the steps before the [try] leaves [runTest] as it is:
    nothing catches it and no result is recorded. *)
Lemma runTest_setup_error_escapes scope test m m1 e :
  before_try host cfg scope m = (m1, inr e) ->
  runTest host cfg scope test m = (m1, inr e) /\
  results m1 = results m /\ errorCount m1 = errorCount m.
Proof.
  intros Hb. split.
  - unfold runTest, bind. rewrite Hb. reflexivity.
  - pose proof (before_try_frame host cfg scope m) as H.
    unfold wp in H. rewrite Hb in H. exact H.
Qed.

(** C1 (amended): an error raised by the body of a test, with a thrown value
    other than null or undefined, is caught inside [runTest] and recorded as
    a failed result carrying the error's message; and when the reporter's
    per-test streaming does not itself raise, [runTest] then returns
    normally, with the failure counted once, so that the loops go on. *)
Theorem runTest_contains_body_failure scope test m m1 start w c msg :
  before_try host cfg scope m = (m1, inl start) ->
  f test (self scope) (world m1) = (w, c) ->
  c = Js.rejects (Js.object msg) \/ c = Js.throws (Js.object msg) ->
  let r := failed_result test start (now host w) msg in
  let m' := fst (runTest host cfg scope test m) in
  results m' = (results m ++ [r])%list /\
  Result.passed r = false /\
  Result.errorMessage r = Some msg /\
  (quiet_send cfg ->
   snd (runTest host cfg scope test m) = inl tt /\
   errorCount m' = errorCount m + 1).
Proof.
  intros Hb Hf Hc r m'.
  assert (Hwp : wp (runTest host cfg scope test)
                   (fun _ m' => results m' = (results m ++ [r])%list /\
                                errorCount m' = errorCount m + 1)
                   (fun _ m' => results m' = (results m ++ [r])%list /\
                                ~ quiet_send cfg)
                   m).
  { pose proof (before_try_frame host cfg scope m) as Hframe.
    unfold wp in Hframe. rewrite Hb in Hframe.
    destruct Hframe as (Hstart & Hres & Hcount).
    unfold runTest. apply wp_bind. unfold wp at 1. rewrite Hb.
    unfold try_block, catch_block, send_if_realtime, quiet_send.
    wp_run.
    all: match goal with
         | H : f _ _ (world _) = (_, _ ) |- _ =>
             rewrite Hf in H; inversion H; subst; clear H
         end.
    all: destruct Hc as [Hc | Hc]; try discriminate Hc; injection Hc as ->.
    all: rewrite ?Hres, ?Hcount.
    all: try (split; reflexivity).
    all: split; [reflexivity |].
    all: try (exact (fun H : False => H)).
    all: intros Hq; destruct (Hq eq_refl) as (s & Hs & Hnt);
      try discriminate; injection Hs as <-; absurd_throw. }
  repeat split.
  - unfold wp in Hwp. subst m'. destruct (runTest host cfg scope test m) as [m2 [[] | e]];
      simpl; apply Hwp.
  - unfold wp in Hwp. destruct (runTest host cfg scope test m) as [m2 [[] | e]];
      simpl; [reflexivity | destruct Hwp as [_ Hn]; contradiction].
  - unfold wp in Hwp. subst m'. destruct (runTest host cfg scope test m) as [m2 [[] | e]];
      simpl; [apply Hwp | destruct Hwp as [_ Hn]; contradiction].
Qed.

(** With steps 2-4 that never fail, bodies that fail only with proper
    errors and a [send] that does not throw, every call of [runTest]
    returns, however its test body ends. *)
Lemma runTest_returns scope test m :
  reliable_setup cfg ->
  proper_errors cfg ->
  quiet_send cfg ->
  In scope (testSuites cfg) ->
  In test (testCases scope) ->
  wp (runTest host cfg scope test) (fun _ _ => True) (fun _ _ => False) m.
Proof.
  intros (Hclear & Hrender & Hhooks) Hproper Hq Hscope Htest.
  specialize (Hproper scope test Hscope Htest).
  specialize (Hhooks scope).
  unfold quiet_send in Hq.
  unfold runTest, before_try, try_block, catch_block, send_if_realtime.
  destruct (reporter cfg) as [g | | type onFinish send]; [| destruct Hq |].
  2: destruct (loose_eq type "realtime");
       [destruct (Hq eq_refl) as (s & -> & Hs) | clear Hq].
  all: wp_run.
  all: try exact I.
  all: try absurd_throw.
  all: try match goal with
           | Hc : clearAsync _ ?w = _ |- _ =>
               specialize (Hclear w); rewrite Hc in Hclear; discriminate Hclear
           end.
  all: try match goal with
           | Hc : reRender _ ?w = (_, Js.throws ?e) |- _ =>
               apply (Hrender w e); rewrite Hc; reflexivity
           end.
  all: try match goal with
           | Hc : ?h (self _) ?w = _ |- _ =>
               pose proof (Hhooks h Hscope eq_refl w) as Hh; rewrite Hc in Hh;
               discriminate Hh
           end.
  all: match goal with
       | Hc : f _ _ ?w = _ |- _ =>
           destruct (Hproper w) as [Hrej Hthr]; rewrite Hc in Hrej, Hthr;
           simpl in Hrej, Hthr; congruence
       end.
Qed.

(** X4: no failure of a test body ever ends the loops.  With steps before
    the body that never fail, bodies that never throw [null] or
    [undefined] and a per-test [send] that does not throw, the loops return
    from every state. *)
Lemma body_failures_never_abort m :
  reliable_setup cfg ->
  proper_errors cfg ->
  quiet_send cfg ->
  completes (run_cases host cfg) m.
Proof.
  intros Hsetup Hproper Hq.
  assert (H : wp (run_cases host cfg) (fun _ _ => True) (fun _ _ => False) m).
  { eapply wp_mono;
      [apply (run_cases_rule host cfg (fun _ _ => True) (fun _ _ _ => False)) | |].
    - intros acc i j scope test m0 Hscope Htest _ _.
      apply wp_bind, wp_emit. apply runTest_returns; assumption.
    - exact I.
    - auto.
    - intros e m' (pre & _ & _ & []). }
  unfold wp in H. unfold completes.
  destruct (run_cases host cfg m) as [m' [a | e]]; [exists a; reflexivity | destruct H].
Qed.

End Containment.

(** ** Whole runs *)
Section Runs.

Context {World : Type} (host : Host World) (cfg : Config World).

Implicit Types (m : machine World) (w : World).

(** To a reporter that is not a realtime one, [runTest] sends nothing. *)
Lemma runTest_not_realtime scope test m :
  not_realtime cfg ->
  wp (runTest host cfg scope test)
     (fun _ m' => reporter_calls (trace m') = reporter_calls (trace m))
     (fun _ m' => reporter_calls (trace m') = reporter_calls (trace m))
     m.
Proof.
  unfold not_realtime. intros Hnr.
  unfold runTest, before_try, try_block, catch_block, send_if_realtime.
  destruct (reporter cfg) as [g | | type onFinish send]; [| destruct Hnr |].
  2: rewrite Hnr.
  all: wp_run.
  all: unfold reporter_calls; rewrite ?collect_app;
    cbn [collect flat_map app reporter_call]; rewrite ?app_nil_r; reflexivity.
Qed.

Lemma run_cases_not_realtime m :
  not_realtime cfg ->
  wp (run_cases host cfg)
     (fun _ m' => reporter_calls (trace m') = reporter_calls (trace m))
     (fun _ m' => reporter_calls (trace m') = reporter_calls (trace m))
     m.
Proof.
  intros Hnr.
  pose (Inv := fun (acc : list (selection World)) (m' : machine World) =>
                 reporter_calls (trace m') = reporter_calls (trace m)).
  eapply wp_mono;
    [apply (run_cases_rule host cfg Inv (fun acc _ => Inv acc)) | |].
  - intros acc i j scope test m0 _ _ _ Hinv.
    apply wp_bind, wp_emit.
    eapply wp_mono; [apply (runTest_not_realtime scope test _ Hnr) | |];
      cbv beta; unfold Inv; intros ? m' ->; simpl;
      unfold reporter_calls in *; rewrite collect_app, Hinv; simpl;
      apply app_nil_r.
  - unfold Inv. simpl. unfold reporter_calls. rewrite collect_app. simpl.
    apply app_nil_r.
  - intros start m' [_ H]. exact H.
  - intros e m' (pre & _ & _ & H). exact H.
Qed.

(** The state in which a run ends is the one the loops leave, up to the
    trace. *)
Lemma run_frame m :
  let m1 := fst (run_cases host cfg m) in
  let m' := fst (runTestSuites host cfg m) in
  results m' = results m1 /\ errorCount m' = errorCount m1 /\
  invocations (trace m') = invocations (trace m1) /\
  lifecycle (trace m') = lifecycle (trace m1).
Proof.
  destruct (run_cases host cfg m) as [m1 [start | e]] eqn:Hc; cbv zeta.
  - rewrite (runTestSuites_continues host cfg m m1 start Hc). simpl.
    apply (wp_always _ (fun m' => results m' = results m1 /\ errorCount m' = errorCount m1 /\
                                  invocations (trace m') = invocations (trace m1) /\
                                  lifecycle (trace m') = lifecycle (trace m1))).
    apply after_cases_frame.
  - rewrite (runTestSuites_aborts host cfg m m1 e Hc). simpl. auto.
Qed.

(** The tests a run executes are the selected ones, in order, when the
    loops return; in any case they are selected ones, in order, from the
    first on. *)
Lemma run_executes_selected m :
  let executed := invocations (trace (fst (runTestSuites host cfg m))) in
  (completes (run_cases host cfg) m ->
   executed = (invocations (trace m) ++ map index_of (selected cfg))%list) /\
  (exists pre, prefix pre (selected cfg) /\
               executed = (invocations (trace m) ++ map index_of pre)%list).
Proof.
  cbv zeta. destruct (run_frame m) as (_ & _ & -> & _).
  pose proof (run_cases_invocations host cfg m) as H. unfold wp, completes in *.
  destruct (run_cases host cfg m) as [m1 [start | e]]; simpl.
  - split; [intros _; exact H |].
    exists (selected cfg). split; [exists []; symmetry; apply app_nil_r | exact H].
  - split; [intros [a Ha]; discriminate Ha |].
    destruct H as (pre & Hpre & _ & H). exists pre. auto.
Qed.

End Runs.

(** ** Calls, one by one *)
Section Calls.

Context {World : Type} (host : Host World) (cfg : Config World).

Implicit Types (m : machine World) (scope : TestScope World) (test : TestCase World).

(** The steps before the [try] are steps 2 to 4 of the lifecycle: same
    calls, same world, and the error of an awaited step leaves them. *)
Lemma before_try_setup scope m :
  before_try host cfg scope m =
  let '(steps, w3, err) := setup_run cfg scope (world m) in
  ({| world := w3; results := results m; errorCount := errorCount m;
      trace := trace m ++ steps |},
   match err with
   | Some e => inr e
   | None => inl (now host (world m))
   end).
Proof.
  unfold before_try, setup_run, bind, new_Date, emit, await, call, awaited, ret.
  cbn [world results errorCount trace set_world].
  destruct (clearAsync (component cfg) (world m)) as [w1 c1].
  destruct c1; cbn [world results errorCount trace set_world]; try reflexivity.
  destruct (beforeEach scope) as [hook |];
    cbn [world results errorCount trace set_world].
  - destruct (hook (self scope) w1) as [w2 c2].
    destruct c2; cbn [world results errorCount trace set_world];
      rewrite <- ?app_assoc; try reflexivity.
    destruct (reRender (component cfg) w2) as [w3 c3].
    destruct c3; cbn [world results errorCount trace set_world app];
      rewrite <- ?app_assoc; reflexivity.
  - destruct (reRender (component cfg) w1) as [w3 c3].
    destruct c3; cbn [world results errorCount trace set_world app];
      rewrite <- ?app_assoc; reflexivity.
Qed.

(** What the [try] and its handler do once the body has completed. *)
Lemma body_handled scope test start m1 w c :
  f test (self scope) (world m1) = (w, c) ->
  let post := fun (o : unit + Js.thrown) (m' : machine World) =>
    (exists rest, trace m' = (trace m1 ++ call_f (self scope) :: rest)%list /\
                  lifecycle rest = []) /\
    match outcome_result test start (now host w) c with
    | Some r => exists more, results m' = (results m1 ++ r :: more)%list
    | None =>
        results m' = results m1 /\
        o = inr (Js.TypeError "Cannot read property 'message' of undefined")
    end /\
    (not_realtime cfg -> world m' = w) in
  wp (try_catch (try_block host cfg scope test start) (catch_block host cfg test start))
     (fun _ => post (inl tt)) (fun e => post (inr e)) m1.
Proof.
  intros Hf post. subst post.
  unfold try_block, catch_block, send_if_realtime, not_realtime.
  wp_run.
  all: match goal with
       | H : f _ _ (world _) = (_, _ ) |- _ =>
           rewrite Hf in H; inversion H; subst; clear H
       end.
  all: cbn [outcome_result]; rewrite <- ?app_assoc; cbn [app].
  all: split; [eexists; split; reflexivity |].
  all: split; [try (eexists; reflexivity); try (split; reflexivity) |].
  all: try (intros Hn; discriminate Hn).
  all: try (intros []).
  all: try (intros _); reflexivity.
Qed.

(** A realtime reporter whose [send] does not throw is sent the result of
    the test, once, in the world the body left, and [runTest] returns. *)
Lemma runTest_streams scope test m m1 start w c r type onFinish send :
  reporter cfg = reporter_object type onFinish (Some send) ->
  loose_eq type "realtime" = true ->
  (forall p, never_throws (send p)) ->
  before_try host cfg scope m = (m1, inl start) ->
  f test (self scope) (world m1) = (w, c) ->
  outcome_result test start (now host w) c = Some r ->
  runTest host cfg scope test m =
  ({| world := fst (send (fragment_of r) w);
      results := results m1 ++ [r];
      errorCount := if Result.passed r then errorCount m1 else errorCount m1 + 1;
      trace := trace m1 ++ [call_f (self scope); console_line r;
                            call_send (fragment_of r)] |},
   inl tt).
Proof.
  intros Hr Ht Hs Hb Hf Hres.
  assert (Hwp : wp (runTest host cfg scope test)
                   (fun _ m' =>
                      m' = {| world := fst (send (fragment_of r) w);
                              results := results m1 ++ [r];
                              errorCount := if Result.passed r then errorCount m1
                                            else errorCount m1 + 1;
                              trace := trace m1 ++ [call_f (self scope); console_line r;
                                                    call_send (fragment_of r)] |})
                   (fun _ _ => False) m).
  { unfold runTest. apply wp_bind. unfold wp at 1. rewrite Hb.
    unfold try_block, catch_block, send_if_realtime. rewrite Hr, Ht.
    wp_run.
    all: match goal with
         | H : f _ _ (world _) = (_, _ ) |- _ =>
             rewrite Hf in H; inversion H; subst; clear H
         end.
    all: try absurd_throw.
    all: try discriminate Hres.
    all: cbn [outcome_result] in Hres; injection Hres as <-.
    all: unfold fragment_of, console_line, success_result, failed_result;
      cbn [Result.passed Result.message].
    all: match goal with
         | H : _ (fragment _ _) _ = (_, _) |- _ => rewrite H
         end.
    all: rewrite <- ?app_assoc; reflexivity. }
  unfold wp in Hwp.
  destruct (runTest host cfg scope test m) as [m' [[] | e]]; [| destruct Hwp].
  rewrite Hwp. reflexivity.
Qed.

(** The hand-over, call by call: the call is made on the report, in the
    world the loops left, and it is awaited. *)
Lemma after_cases_function g start m :
  reporter cfg = reporter_function g ->
  shouldSendReport cfg = None ->
  after_cases host cfg start m =
  ({| world := fst (g (report_of host start m) (world m));
      results := results m; errorCount := errorCount m;
      trace := trace m ++ [console_log (stop_line host start (now host (world m)));
                           call_reporter (report_of host start m)] |},
   awaited (snd (g (report_of host start m) (world m)))).
Proof.
  intros Hr Hs.
  unfold after_cases, send_report, bind, new_Date, emit, get_results,
    get_errorCount, await, awaited.
  rewrite Hs, Hr. cbn [world results errorCount trace set_world].
  unfold report_of.
  destruct (g _ (world m)) as [w c].
  destruct c; cbn [fst snd set_world world results errorCount trace];
    rewrite <- app_assoc; reflexivity.
Qed.

Lemma after_cases_onFinish type onFinish send start m :
  reporter cfg = reporter_object type (Some onFinish) send ->
  loose_eq type "realtime" = true ->
  shouldSendReport cfg = None ->
  after_cases host cfg start m =
  ({| world := fst (onFinish (report_of host start m) (world m));
      results := results m; errorCount := errorCount m;
      trace := trace m ++ [console_log (stop_line host start (now host (world m)));
                           call_onFinish (report_of host start m)] |},
   awaited (snd (onFinish (report_of host start m) (world m)))).
Proof.
  intros Hr Ht Hs.
  unfold after_cases, send_report, call_member, bind, new_Date, emit, get_results,
    get_errorCount, await, awaited.
  rewrite Hs, Hr, Ht. cbn [world results errorCount trace set_world].
  unfold report_of.
  destruct (onFinish _ (world m)) as [w c].
  destruct c; cbn [fst snd set_world world results errorCount trace];
    rewrite <- app_assoc; reflexivity.
Qed.

Lemma after_cases_deferred type onFinish send start m :
  reporter cfg = reporter_object type onFinish (Some send) ->
  loose_eq type "realtime" = false ->
  loose_eq type "deferred" = true ->
  shouldSendReport cfg = None ->
  after_cases host cfg start m =
  ({| world := fst (send (whole (report_of host start m)) (world m));
      results := results m; errorCount := errorCount m;
      trace := trace m ++ [console_log (stop_line host start (now host (world m)));
                           call_send (whole (report_of host start m))] |},
   awaited (snd (send (whole (report_of host start m)) (world m)))).
Proof.
  intros Hr Ht Hd Hs.
  unfold after_cases, send_report, call_member, bind, new_Date, emit, get_results,
    get_errorCount, await, awaited.
  rewrite Hs, Hr, Ht, Hd. cbn [world results errorCount trace set_world].
  unfold report_of.
  destruct (send _ (world m)) as [w c].
  destruct c; cbn [fst snd set_world world results errorCount trace];
    rewrite <- app_assoc; reflexivity.
Qed.

(** Where the steps before the body stop, and what they are when they do
    not. *)
Lemma setup_run_steps scope (w : World) :
  match setup_run cfg scope w with
  | (steps, _, Some _) => prefix steps (lifecycle_of scope)
  | (steps, _, None) => (steps ++ [call_f (self scope)])%list = lifecycle_of scope
  end.
Proof.
  unfold setup_run, lifecycle_of, prefix, awaited.
  destruct (clearAsync (component cfg) w) as [w1 c1].
  destruct c1; try (eexists; cbn [app]; reflexivity).
  destruct (beforeEach scope) as [hook |].
  - destruct (hook (self scope) w1) as [w2 c2].
    destruct c2; try (eexists; cbn [app]; reflexivity).
    destruct (reRender (component cfg) w2) as [w3 c3].
    destruct c3; try reflexivity. eexists; cbn [app]; reflexivity.
  - destruct (reRender (component cfg) w1) as [w3 c3].
    destruct c3; try reflexivity. eexists; cbn [app]; reflexivity.
Qed.

(** What a returning call of [runTest] adds: results of which at most one
    is a failed one, and as much to the counter. *)
Lemma runTest_appends scope test m :
  wp (runTest host cfg scope test)
     (fun _ m' => exists rs, results m' = (results m ++ rs)%list /\
                             failures rs <= 1 /\
                             errorCount m' = errorCount m + failures rs)
     (fun _ _ => True) m.
Proof.
  unfold runTest, before_try, try_block, catch_block. wp_run.
  all: try exact I.
  all: rewrite <- ?app_assoc; cbn [app].
  all: eexists; (split; [reflexivity |]).
  all: unfold failures, Result.failed;
    cbn [List.filter Result.passed negb List.length]; lia.
Qed.

(** The counter against the outcome of the body. *)
Lemma runTest_counts_outcome scope test m m1 start w c :
  before_try host cfg scope m = (m1, inl start) ->
  f test (self scope) (world m1) = (w, c) ->
  wp (runTest host cfg scope test)
     (fun _ m' => (c <> Js.returns -> errorCount m' = errorCount m + 1) /\
                  (c = Js.returns -> quiet_send cfg -> errorCount m' = errorCount m))
     (fun _ _ => True) m.
Proof.
  intros Hb Hf.
  assert (Hcount : errorCount m1 = errorCount m).
  { pose proof (before_try_frame host cfg scope m) as H.
    unfold wp in H. rewrite Hb in H. apply H. }
  unfold runTest. apply wp_bind. unfold wp at 1. rewrite Hb.
  unfold try_block, catch_block, send_if_realtime, quiet_send. wp_run.
  all: try exact I.
  all: match goal with
       | H : f _ _ (world _) = (_, _ ) |- _ =>
           rewrite Hf in H; inversion H; subst; clear H
       end.
  all: rewrite Hcount.
  all: split; [intros Hc; try reflexivity; try (exfalso; apply Hc; reflexivity)
              | intros Hc Hq; try discriminate Hc; try reflexivity].
  all: destruct (Hq eq_refl) as (s & Hsome & Hs); injection Hsome as <-.
  all: absurd_throw.
Qed.

(** The hand-over to a deferred reporter when [sendReport] is not false. *)
Lemma after_cases_deferred_call type onFinish send start m :
  reporter cfg = reporter_object type onFinish (Some send) ->
  loose_eq type "realtime" = false ->
  loose_eq type "deferred" = true ->
  shouldSendReport cfg <> Some false ->
  world (fst (after_cases host cfg start m)) =
  fst (send (whole (report_of host start m)) (world m)) /\
  snd (after_cases host cfg start m) =
  awaited (snd (send (whole (report_of host start m)) (world m))).
Proof.
  intros Hr Ht Hd Hs.
  unfold after_cases, send_report, call_member, bind, new_Date, emit, get_results,
    get_errorCount, await, awaited.
  rewrite Hr, Ht, Hd.
  destruct (shouldSendReport cfg) as [[|] |]; [| congruence |].
  all: cbn [world results errorCount trace set_world negb].
  all: unfold report_of.
  all: destruct (send _ (world m)) as [w c].
  all: destruct c; split; reflexivity.
Qed.

End Calls.

(** ** The failure counter *)
Section Counter.

Context {World : Type} (host : Host World) (cfg : Config World).

(** C5 (amended): a call of [runTest] that returns has appended results of
    which at most one is a failed one, and has raised [errorCount] by that
    number: by one when the body of the test failed, by none when it
    succeeded and the reporter's [send] does not throw.  So from one
    returned call of [runTest] to the next, and at the end of every run
    whose loops return, [errorCount] is the number of results with [passed]
    false; in every run it is at most one behind. *)
Theorem errorCount_counts_failures (w : World) :
  let m' := fst (runTestSuites host cfg (constructed w)) in
  (forall scope test (m : machine World),
     completes (runTest host cfg scope test) m ->
     exists rs,
       results (fst (runTest host cfg scope test m)) = (results m ++ rs)%list /\
       failures rs <= 1 /\
       errorCount (fst (runTest host cfg scope test m)) = errorCount m + failures rs) /\
  (forall scope test (m m1 : machine World) start w1 c,
     before_try host cfg scope m = (m1, inl start) ->
     f test (self scope) (world m1) = (w1, c) ->
     completes (runTest host cfg scope test) m ->
     (c <> Js.returns ->
      errorCount (fst (runTest host cfg scope test m)) = errorCount m + 1) /\
     (c = Js.returns -> quiet_send cfg ->
      errorCount (fst (runTest host cfg scope test m)) = errorCount m)) /\
  (forall scope test (m : machine World),
     balanced m ->
     completes (runTest host cfg scope test) m ->
     balanced (fst (runTest host cfg scope test m))) /\
  (completes (run_cases host cfg) (constructed w) -> balanced m') /\
  errorCount m' <= failures (results m') <= errorCount m' + 1.
Proof.
  cbv zeta. split; [| split; [| split]];
    [| | | unfold balanced;
           destruct (run_frame host cfg (constructed w)) as (-> & -> & _)].
  - intros scope test m [a Ha].
    pose proof (runTest_appends host cfg scope test m) as H.
    apply (wp_returns _ _ _ _ a) in H; [| exact Ha]. exact H.
  - intros scope test m m1 start w1 c Hb Hf [a Ha].
    pose proof (runTest_counts_outcome host cfg scope test m m1 start w1 c Hb Hf) as H.
    apply (wp_returns _ _ _ _ a) in H; [| exact Ha]. exact H.
  - intros scope test m Hm [a Ha].
    pose proof (runTest_counts host cfg scope test m) as H.
    apply (wp_returns _ _ _ _ a) in H; [| exact Ha].
    destruct H as (k & Hc & Hf). unfold balanced in *. lia.
  - pose proof (run_cases_counts host cfg (constructed w) eq_refl) as H.
    unfold wp, completes, balanced in *.
    destruct (run_cases host cfg (constructed w)) as [m1 [start | e]]; simpl.
    + split; [intros _; exact H | lia].
    + split; [intros [a Ha]; discriminate Ha | exact H].
Qed.

End Counter.

(** ** The filter and the order of execution *)
Section Order.

Context {World : Type} (host : Host World) (cfg : Config World).

(** Whether the loops return or not, only tests that pass the filter are
    executed. *)
Lemma executed_only_if_selected (w : World) p :
  In p (invocations (trace (fst (runTestSuites host cfg (constructed w))))) ->
  exists s, In s (selected cfg) /\ index_of s = p.
Proof.
  destruct (run_executes_selected host cfg (constructed w))
    as [_ (pre & [rest Hpre] & ->)].
  simpl. rewrite in_map_iff. intros (s & Hs & Hin).
  exists s. split; [| exact Hs]. rewrite Hpre. apply in_or_app. left. exact Hin.
Qed.

Lemma executed_passes_filter (w : World) i j scope test :
  nth_error (testSuites cfg) i = Some scope ->
  nth_error (testCases scope) j = Some test ->
  In (i, j) (invocations (trace (fst (runTestSuites host cfg (constructed w))))) ->
  should_run cfg (tag test) = true.
Proof.
  intros Hi Hj Hin.
  destruct (executed_only_if_selected w (i, j) Hin)
    as ([[i' j'] [scope' test']] & Hs & [= -> ->]).
  apply selected_In in Hs. destruct Hs as (Hi' & Hj' & Hrun).
  rewrite Hi in Hi'. injection Hi' as <-.
  rewrite Hj in Hj'. injection Hj' as <-. exact Hrun.
Qed.

Lemma selected_is_executed (w : World) i j scope test :
  completes (run_cases host cfg) (constructed w) ->
  nth_error (testSuites cfg) i = Some scope ->
  nth_error (testCases scope) j = Some test ->
  should_run cfg (tag test) = true ->
  In (i, j) (invocations (trace (fst (runTestSuites host cfg (constructed w))))).
Proof.
  intros Hc Hi Hj Hrun.
  destruct (run_executes_selected host cfg (constructed w)) as [Hex _].
  rewrite (Hex Hc). simpl.
  apply (in_map index_of _ ((i, j), (scope, test))), selected_In. auto.
Qed.

(** C4 (amended): under a filter [F], the test declared at
    [testSuites[i].testCases[j]] goes through [runTest] only if its tag is
    in [F], so never when it has no tag; and it does go through [runTest]
    if its tag is in [F], in a run whose loops return (every earlier call
    of [runTest] has returned).  Without a filter, every test of such a run
    does. *)
Theorem filter_decides_execution (w : World) i j scope test :
  nth_error (testSuites cfg) i = Some scope ->
  nth_error (testCases scope) j = Some test ->
  let executed := invocations (trace (fst (runTestSuites host cfg (constructed w)))) in
  match filter cfg with
  | Some F =>
      (In (i, j) executed -> exists t, tag test = Some t /\ In t F) /\
      (tag test = None -> ~ In (i, j) executed) /\
      (completes (run_cases host cfg) (constructed w) ->
       (In (i, j) executed <-> exists t, tag test = Some t /\ In t F))
  | None =>
      completes (run_cases host cfg) (constructed w) -> In (i, j) executed
  end.
Proof.
  intros Hi Hj executed. subst executed.
  pose proof (executed_passes_filter w i j scope test Hi Hj) as Honly.
  pose proof (fun Hc => selected_is_executed w i j scope test Hc Hi Hj) as Hif.
  destruct (filter cfg) as [F |] eqn:HF.
  - pose proof (should_run_filter cfg F (tag test) HF) as Hrun.
    split; [| split].
    + intros Hin. apply Hrun, Honly, Hin.
    + intros Hnone Hin. apply Honly, Hrun in Hin.
      destruct Hin as (t & Ht & _). congruence.
    + intros Hc. split.
      * intros Hin. apply Hrun, Honly, Hin.
      * intros Ht. apply (Hif Hc), Hrun, Ht.
  - intros Hc. apply (Hif Hc), should_run_no_filter, HF.
Qed.

(** C6 (amended): in a run without filter whose loops return, every
    declared test goes through [runTest] exactly once, one after the other,
    suite by suite and test by test in the order of declaration; and when
    the reporter's per-test [send] does not throw, the results are one per
    test, in that order. *)
Theorem unfiltered_run_executes_all_in_order (w : World) :
  filter cfg = None ->
  completes (run_cases host cfg) (constructed w) ->
  let m' := fst (runTestSuites host cfg (constructed w)) in
  invocations (trace m') = map index_of (declared cfg) /\
  (forall i j scope test,
     nth_error (testSuites cfg) i = Some scope ->
     nth_error (testCases scope) j = Some test ->
     In (i, j) (invocations (trace m'))) /\
  NoDup (invocations (trace m')) /\
  StronglySorted before (invocations (trace m')) /\
  lifecycle (trace m') = flat_map (fun s => lifecycle_of (scope_of s)) (declared cfg) /\
  (quiet_send cfg ->
   map Result.description (results m') =
   map (fun s => description_of (test_of s)) (declared cfg)).
Proof.
  intros HF Hc m'.
  assert (Hex : invocations (trace m') = map index_of (declared cfg)).
  { destruct (run_executes_selected host cfg (constructed w)) as [Hex _].
    subst m'. rewrite (Hex Hc), (selected_no_filter cfg HF). reflexivity. }
  split; [exact Hex |]. split; [| split; [| split; [| split]]].
  - intros i j scope test Hi Hj. rewrite Hex.
    apply (in_map index_of _ ((i, j), (scope, test))), declared_In. auto.
  - rewrite Hex. apply sorted_NoDup, declared_sorted.
  - rewrite Hex. apply declared_sorted.
  - subst m'. destruct (run_frame host cfg (constructed w)) as (_ & _ & _ & ->).
    destruct Hc as [start Hstart].
    pose proof (run_cases_lifecycle host cfg (constructed w)) as H.
    apply (wp_returns _ _ _ _ start) in H; [| exact Hstart].
    rewrite H, (selected_no_filter cfg HF). reflexivity.
  - intros Hq. subst m'.
    destruct (run_frame host cfg (constructed w)) as (-> & _).
    destruct Hc as [start Hstart].
    pose proof (run_cases_results host cfg (constructed w) Hq) as H.
    apply (wp_returns _ _ _ _ start) in H; [| exact Hstart].
    destruct H as (rs & Hrs & Hd & _). rewrite Hrs. simpl.
    rewrite Hd, (selected_no_filter cfg HF). reflexivity.
Qed.

End Order.

(** ** What the reporter receives *)
Section Reporting.

Context {World : Type} (host : Host World) (cfg : Config World).

(** C7 (amended): with a realtime reporter that has an [onFinish] and a
    [send] that does not throw, and no [sendReport] prop: a call of
    [runTest] whose body completes with a result applies [send] once, to
    the message and the outcome of that result, in the world the body left,
    without waiting for it, and returns; a run whose loops return has made
    exactly these calls to the reporter: one [send] per executed test, in
    the order of execution, for that test's result, and then one
    [onFinish], applied to the report in the world the loops left and
    awaited, as the last thing the run does: the run ends as it ends. *)
Theorem realtime_reporter_calls (w : World) type onFinish send start :
  reporter cfg = reporter_object type (Some onFinish) (Some send) ->
  loose_eq type "realtime" = true ->
  (forall p, never_throws (send p)) ->
  shouldSendReport cfg = None ->
  snd (run_cases host cfg (constructed w)) = inl start ->
  let m1 := fst (run_cases host cfg (constructed w)) in
  let m' := fst (runTestSuites host cfg (constructed w)) in
  let report := report_of host start m1 in
  (forall scope test (m m2 : machine World) start2 w2 c r,
     before_try host cfg scope m = (m2, inl start2) ->
     f test (self scope) (world m2) = (w2, c) ->
     outcome_result test start2 (now host w2) c = Some r ->
     runTest host cfg scope test m =
     ({| world := fst (send (fragment_of r) w2);
         results := results m2 ++ [r];
         errorCount := if Result.passed r then errorCount m2 else errorCount m2 + 1;
         trace := trace m2 ++ [call_f (self scope); console_line r;
                               call_send (fragment_of r)] |},
      inl tt)) /\
  reporter_calls (trace m') =
  (map (fun r => call_send (fragment_of r)) (results m') ++ [call_onFinish report])%list /\
  (exists evs, trace m' = (evs ++ [call_onFinish report])%list) /\
  world m' = fst (onFinish report (world m1)) /\
  snd (runTestSuites host cfg (constructed w)) =
  awaited (snd (onFinish report (world m1))) /\
  map Result.description (results m') =
  map (fun s => description_of (test_of s)) (selected cfg) /\
  invocations (trace m') = map index_of (selected cfg) /\
  Report.results report = results m'.
Proof.
  intros Hr Ht Hs Hflag Hstart m1 m' report.
  assert (Hq : quiet_send cfg).
  { unfold quiet_send. rewrite Hr. intros _. exists send. auto. }
  assert (Hrt : is_realtime cfg = true).
  { unfold is_realtime. rewrite Hr. exact Ht. }
  pose proof (run_cases_results host cfg (constructed w) Hq) as Hres.
  apply (wp_returns _ _ _ _ start) in Hres; [| exact Hstart].
  destruct Hres as (rs & Hrs & Hd & Hcalls). rewrite Hrt in Hcalls.
  simpl in Hrs, Hcalls. fold m1 in Hrs, Hcalls.
  destruct (run_frame host cfg (constructed w)) as (Hres' & _ & Hinv & _).
  fold m1 m' in Hres', Hinv.
  assert (Hrun : run_cases host cfg (constructed w) = (m1, inl start)).
  { subst m1. destruct (run_cases host cfg (constructed w)); simpl in *.
    congruence. }
  assert (Hend : runTestSuites host cfg (constructed w) =
                 ({| world := fst (onFinish report (world m1));
                     results := results m1; errorCount := errorCount m1;
                     trace := trace m1
                              ++ [console_log (stop_line host start (now host (world m1)));
                                  call_onFinish report] |},
                  awaited (snd (onFinish report (world m1))))).
  { rewrite (runTestSuites_continues host cfg _ m1 start Hrun).
    apply (after_cases_onFinish host cfg type onFinish (Some send)); assumption. }
  assert (Htrace : trace m' =
                   (trace m1 ++ [console_log (stop_line host start (now host (world m1)));
                                 call_onFinish report])%list).
  { subst m'. rewrite Hend. reflexivity. }
  split.
  { intros scope test m m2 start2 w2 c r.
    apply (runTest_streams host cfg scope test m m2 start2 w2 c r type (Some onFinish) send);
      assumption. }
  repeat split.
  - rewrite Htrace, Hres', Hrs. unfold reporter_calls in *.
    rewrite collect_app, Hcalls. reflexivity.
  - exists (trace m1 ++ [console_log (stop_line host start (now host (world m1)))])%list.
    rewrite Htrace, <- app_assoc. reflexivity.
  - subst m'. rewrite Hend. reflexivity.
  - rewrite Hend. reflexivity.
  - rewrite Hres', Hrs. exact Hd.
  - destruct (run_executes_selected host cfg (constructed w)) as [Hex _].
    apply Hex. exists start. exact Hstart.
  - symmetry. exact Hres'.
Qed.

Lemma seconds_nonneg (start stop : Z) :
  (start <= stop)%Z -> (0 <= seconds start stop)%Q.
Proof. intros H. unfold seconds, Qle. simpl. lia. Qed.

(** C8 (amended): with a function as reporter and no [sendReport] prop, a
    run whose loops return applies the reporter exactly once, after every
    test has run, in the world the loops left, to a report that holds the
    accumulated results and error count and whose [fullResults.testCases]
    is the same sequence as its [results]; the call is awaited, the run
    ends as it ends.  The duration of the report is [(stop - start) / 1000]:
    not negative exactly when the clock is not behind the start of the run,
    so whenever time does not go backwards during the calls. *)
Theorem callback_reporter_called_once (w : World) g start :
  reporter cfg = reporter_function g ->
  shouldSendReport cfg = None ->
  snd (run_cases host cfg (constructed w)) = inl start ->
  let m1 := fst (run_cases host cfg (constructed w)) in
  let m' := fst (runTestSuites host cfg (constructed w)) in
  let report := report_of host start m1 in
  reporter_calls (trace m') = [call_reporter report] /\
  trace m' = (trace m1 ++ [console_log (stop_line host start (now host (world m1)));
                           call_reporter report])%list /\
  world m' = fst (g report (world m1)) /\
  snd (runTestSuites host cfg (constructed w)) = awaited (snd (g report (world m1))) /\
  invocations (trace m1) = map index_of (selected cfg) /\
  Report.results report = results m' /\
  Report.errorCount report = errorCount m' /\
  FullResults.testCases (Report.fullResults report) = Report.results report /\
  Report.duration report = seconds start (now host (world m1)) /\
  ((0 <= Report.duration report)%Q <-> (start <= now host (world m1))%Z) /\
  (steady_clock host cfg -> (0 <= Report.duration report)%Q).
Proof.
  intros Hr Hflag Hstart m1 m' report.
  assert (Hnr : not_realtime cfg) by (unfold not_realtime; rewrite Hr; exact I).
  pose proof (run_cases_not_realtime host cfg (constructed w) Hnr) as Hcalls.
  apply (wp_returns _ _ _ _ start) in Hcalls; [| exact Hstart].
  simpl in Hcalls. fold m1 in Hcalls.
  pose proof (run_cases_invocations host cfg (constructed w)) as Hinv.
  apply (wp_returns _ _ _ _ start) in Hinv; [| exact Hstart].
  simpl in Hinv. fold m1 in Hinv.
  destruct (run_frame host cfg (constructed w)) as (Hres' & Hcount' & _).
  fold m1 m' in Hres', Hcount'.
  assert (Hrun : run_cases host cfg (constructed w) = (m1, inl start)).
  { subst m1. destruct (run_cases host cfg (constructed w)); simpl in *.
    congruence. }
  assert (Hend : runTestSuites host cfg (constructed w) =
                 ({| world := fst (g report (world m1));
                     results := results m1; errorCount := errorCount m1;
                     trace := trace m1
                              ++ [console_log (stop_line host start (now host (world m1)));
                                  call_reporter report] |},
                  awaited (snd (g report (world m1))))).
  { rewrite (runTestSuites_continues host cfg _ m1 start Hrun).
    apply (after_cases_function host cfg g); assumption. }
  assert (Htrace : trace m' =
                   (trace m1 ++ [console_log (stop_line host start (now host (world m1)));
                                 call_reporter report])%list).
  { subst m'. rewrite Hend. reflexivity. }
  split; [| split; [| split; [| split; [| split; [| split; [| split; [| split;
    [| split; [| split]]]]]]]]].
  - rewrite Htrace. unfold reporter_calls in *. rewrite collect_app, Hcalls.
    reflexivity.
  - exact Htrace.
  - subst m'. rewrite Hend. reflexivity.
  - rewrite Hend. reflexivity.
  - exact Hinv.
  - symmetry. exact Hres'.
  - symmetry. exact Hcount'.
  - reflexivity.
  - reflexivity.
  - unfold report, report_of, seconds, Qle. cbn [Report.duration Qnum Qden]. lia.
  - intros Hclock.
    pose proof (run_cases_keeps_time host cfg (constructed w) Hnr Hclock) as Htime.
    apply (wp_returns _ _ _ _ start) in Htime; [| exact Hstart].
    fold m1 in Htime. destruct Htime as [_ Htime].
    apply seconds_nonneg. exact Htime.
Qed.

End Reporting.

(** ** The lifecycle of a test *)
Section Lifecycle.

Context {World : Type} (host : Host World) (cfg : Config World).

(** A rejection of the promise of [clearAsync] or of the hook is seen
    (the calls are awaited): the lifecycle stops there. *)
Lemma runTest_awaits_clearAsync scope test (m : machine World) w e :
  clearAsync (component cfg) (world m) = (w, Js.rejects e) ->
  snd (runTest host cfg scope test m) = inr e /\
  lifecycle (trace (fst (runTest host cfg scope test m))) =
  (lifecycle (trace m) ++ [call_clearAsync])%list.
Proof.
  intros Hc. unfold runTest, before_try, bind, new_Date, emit, await. simpl.
  rewrite Hc. simpl. split; [reflexivity |].
  unfold lifecycle. rewrite collect_app. reflexivity.
Qed.

Lemma runTest_awaits_beforeEach scope test (m : machine World) w hook w' e :
  clearAsync (component cfg) (world m) = (w, Js.returns) ->
  beforeEach scope = Some hook ->
  hook (self scope) w = (w', Js.rejects e) ->
  snd (runTest host cfg scope test m) = inr e /\
  lifecycle (trace (fst (runTest host cfg scope test m))) =
  (lifecycle (trace m) ++ [call_clearAsync; call_beforeEach (self scope)])%list.
Proof.
  intros Hc Hb Hh. unfold runTest, before_try, bind, new_Date, emit, await. simpl.
  rewrite Hc. simpl. rewrite Hb. simpl. rewrite Hh. simpl. split; [reflexivity |].
  unfold lifecycle. rewrite !collect_app. simpl. rewrite <- app_assoc. reflexivity.
Qed.

(** C9: [runTest] performs the lifecycle of the spec, in its order.  The
    steps before the body are those of [setup_run]: [clearAsync], awaited;
    the suite's hook if there is one, called on the suite and awaited;
    [reRender].  When one of them stops the lifecycle, [runTest] has made
    these calls and no other, is in the world they left, and raises their
    error.  When none does, [runTest] has made the whole sequence of calls,
    the body last, called on the suite in the world the steps before it
    left, and no other call of the lifecycle; the body is awaited: the
    result recorded is that of its outcome, a failed one when its promise
    rejects.  So a call of [runTest] does an initial part of the sequence,
    all of it when it returns, and a run whose loops return has done it
    once for each executed test, the hook included. *)
Theorem lifecycle_in_fixed_order :
  (forall scope test (m : machine World),
     let out := runTest host cfg scope test m in
     match lifecycle_run cfg scope test (world m) with
     | stopped steps w e =>
         out = ({| world := w; results := results m; errorCount := errorCount m;
                   trace := trace m ++ steps |}, inr e) /\
         prefix steps (lifecycle_of scope)
     | ran steps w c =>
         steps = lifecycle_of scope /\
         (exists rest, trace (fst out) = (trace m ++ steps ++ rest)%list /\
                       lifecycle rest = []) /\
         match outcome_result test (now host (world m)) (now host w) c with
         | Some r => exists more, results (fst out) = (results m ++ r :: more)%list
         | None =>
             results (fst out) = results m /\
             snd out = inr (Js.TypeError "Cannot read property 'message' of undefined")
         end /\
         (not_realtime cfg -> world (fst out) = w)
     end) /\
  (forall scope test (m : machine World),
     let m' := fst (runTest host cfg scope test m) in
     (exists steps,
        lifecycle (trace m') = (lifecycle (trace m) ++ steps)%list /\
        prefix steps (lifecycle_of scope)) /\
     (completes (runTest host cfg scope test) m ->
      lifecycle (trace m') = (lifecycle (trace m) ++ lifecycle_of scope)%list)) /\
  (forall w : World,
     completes (run_cases host cfg) (constructed w) ->
     lifecycle (trace (fst (runTestSuites host cfg (constructed w)))) =
     flat_map (fun s => lifecycle_of (scope_of s)) (selected cfg)).
Proof.
  split; [| split].
  - intros scope test m. cbv zeta.
    unfold lifecycle_run, runTest, bind. rewrite before_try_setup.
    pose proof (setup_run_steps cfg scope (world m)) as Hsteps.
    destruct (setup_run cfg scope (world m)) as [[steps w3] [e |]].
    + split; [reflexivity | exact Hsteps].
    + destruct (f test (self scope) w3) as [w4 c4] eqn:Hf.
      pose proof (body_handled host cfg scope test (now host (world m))
                    {| world := w3; results := results m; errorCount := errorCount m;
                       trace := trace m ++ steps |} w4 c4 Hf) as H.
      cbv zeta in H. unfold wp in H. cbn [world results errorCount trace] in H.
      destruct (try_catch _ _ _) as [m' [[] | e]]; cbn [fst snd].
      all: destruct H as ((rest & Htr & Hrest) & Hres & Hw).
      all: split; [exact Hsteps |].
      all: split; [exists rest; split; [| exact Hrest];
                   rewrite Htr, <- !app_assoc; reflexivity |].
      all: split; [| exact Hw].
      all: destruct (outcome_result test (now host (world m)) (now host w4) c4);
        [exact Hres | destruct Hres as [Hr He]; split; [exact Hr | exact He]].
  - intros scope test m m'. subst m'.
    pose proof (runTest_lifecycle host cfg scope test m) as H.
    unfold wp, completes in *.
    destruct (runTest host cfg scope test m) as [m' [a | e]]; simpl.
    + split; [| intros _; exact H].
      exists (lifecycle_of scope). split; [exact H |].
      exists []. symmetry. apply app_nil_r.
    + split; [exact H | intros [a Ha]; discriminate Ha].
  - intros w [start Hstart].
    destruct (run_frame host cfg (constructed w)) as (_ & _ & _ & ->).
    pose proof (run_cases_lifecycle host cfg (constructed w)) as H.
    apply (wp_returns _ _ _ _ start) in H; [| exact Hstart].
    exact H.
Qed.

End Lifecycle.

(** ** A missing reporter *)
Section Nullish.

Context {World : Type} (host : Host World) (cfg : Config World).

(** C10: when the reporter is [null] or [undefined], the check made after
    each test and the hand-over at the end of the run both raise on reading
    its [type]; so a run that executes at least one test raises. *)
Theorem nullish_reporter_raises :
  reporter cfg = reporter_nullish ->
  (forall result (m : machine World),
     send_if_realtime cfg result m = (m, inr type_of_nullish)) /\
  (forall start duration (m : machine World),
     send_report host cfg start duration m = (m, inr type_of_nullish)) /\
  (forall m : machine World,
     selected cfg <> [] ->
     exists e, snd (runTestSuites host cfg m) = inr e).
Proof.
  intros Hr. repeat split.
  - intros result m. unfold send_if_realtime. rewrite Hr. reflexivity.
  - intros start duration m. unfold send_report. rewrite Hr. reflexivity.
  - intros m Hsel.
    pose proof (run_cases_nullish_reporter host cfg m Hr) as H. unfold wp in H.
    destruct (run_cases host cfg m) as [m1 [start | e]] eqn:Hc.
    + contradiction.
    + exists e. rewrite (runTestSuites_aborts host cfg m m1 e Hc). reflexivity.
Qed.

(** X19: without a test to execute, it is the hand-over that raises: a run
    that selects no test, with a [null] or [undefined] reporter and a
    [sendReport] prop that is not false, ends with the TypeError of reading
    the reporter's [type]. *)
Lemma nullish_reporter_raises_at_the_end (m : machine World) :
  reporter cfg = reporter_nullish ->
  shouldSendReport cfg <> Some false ->
  selected cfg = [] ->
  snd (runTestSuites host cfg m) = inr type_of_nullish.
Proof.
  intros Hr Hflag Hsel.
  destruct (run_cases host cfg m) as [m1 [start | e]] eqn:Hc.
  - rewrite (runTestSuites_continues host cfg m m1 start Hc).
    pose proof (after_cases_nullish_reporter host cfg start m1 Hr Hflag) as H.
    unfold wp in H. destruct (after_cases host cfg start m1) as [m2 [[] | e]];
      simpl; [destruct H | congruence].
  - exfalso.
    pose proof (run_cases_invocations host cfg m) as H. unfold wp in H.
    rewrite Hc in H. destruct H as (pre & [rest Hpre] & Hne & _).
    rewrite Hsel in Hpre. symmetry in Hpre. apply app_eq_nil in Hpre.
    tauto.
Qed.

End Nullish.

(** ** The legacy flag and unrecognised reporters *)
Section Gates.

Context {World : Type} (host : Host World) (cfg : Config World).

Lemma last_two {A} (l : list A) (a b d : A) : last (l ++ [a; b]) d = b.
Proof.
  replace (l ++ [a; b])%list with ((l ++ [a]) ++ [b])%list
    by (rewrite <- app_assoc; reflexivity).
  apply last_last.
Qed.

(** X16: with [sendReport] false no report is handed over, whatever the
    reporter and the suites; and a run whose loops return ends normally on
    the deprecation warning. *)
Lemma legacy_false_hands_over_nothing (w : World) :
  shouldSendReport cfg = Some false ->
  let m' := fst (runTestSuites host cfg (constructed w)) in
  deliveries (trace m') = [] /\
  (completes (run_cases host cfg) (constructed w) ->
   snd (runTestSuites host cfg (constructed w)) = inl tt /\
   last (trace m') (console_log "") = console_warn deprecation_message).
Proof.
  intros Hflag. cbv zeta.
  pose proof (run_cases_deliveries host cfg (constructed w)) as Hd.
  apply wp_always in Hd. simpl in Hd. unfold completes.
  destruct (run_cases host cfg (constructed w)) as [m1 [start | e]] eqn:Hc.
  - rewrite (runTestSuites_continues host cfg _ m1 start Hc).
    rewrite (after_cases_legacy_false host cfg start m1 Hflag). simpl in *.
    split; [| intros _; split; [reflexivity |]].
    + unfold deliveries in *. rewrite collect_app, Hd. reflexivity.
    + apply last_two.
  - rewrite (runTestSuites_aborts host cfg _ m1 e Hc). simpl in *.
    split; [exact Hd | intros [a Ha]; discriminate Ha].
Qed.

(** X17: with [sendReport] false, a reporter that is not a realtime one
    receives no call at all. *)
Lemma legacy_false_silences_other_reporters (w : World) :
  shouldSendReport cfg = Some false ->
  not_realtime cfg ->
  reporter_calls (trace (fst (runTestSuites host cfg (constructed w)))) = [].
Proof.
  intros Hflag Hnr.
  pose proof (run_cases_not_realtime host cfg (constructed w) Hnr) as Hcalls.
  apply wp_always in Hcalls. simpl in Hcalls.
  destruct (run_cases host cfg (constructed w)) as [m1 [start | e]] eqn:Hc.
  - rewrite (runTestSuites_continues host cfg _ m1 start Hc).
    rewrite (after_cases_legacy_false host cfg start m1 Hflag). simpl in *.
    unfold reporter_calls in *. rewrite collect_app, Hcalls. reflexivity.
  - rewrite (runTestSuites_aborts host cfg _ m1 e Hc). exact Hcalls.
Qed.

Lemma unrecognised_not_realtime : unrecognised cfg -> not_realtime cfg.
Proof.
  unfold unrecognised, not_realtime.
  destruct (reporter cfg); [intros [] | intros [] | intros [H _]; exact H].
Qed.

(** C3 (amended): a reporter that is an object, not [null], and whose
    [type] is neither 'realtime' nor 'deferred' receives no call in the
    whole run: no report is delivered to it. *)
Theorem unrecognised_reporter_receives_nothing (w : World) :
  unrecognised cfg ->
  let m' := fst (runTestSuites host cfg (constructed w)) in
  reporter_calls (trace m') = [] /\ deliveries (trace m') = [].
Proof.
  intros Hu. cbv zeta.
  pose proof (run_cases_not_realtime host cfg (constructed w)
                (unrecognised_not_realtime Hu)) as Hcalls.
  apply wp_always in Hcalls. simpl in Hcalls.
  assert (H : reporter_calls (trace (fst (runTestSuites host cfg (constructed w)))) = []).
  { destruct (run_cases host cfg (constructed w)) as [m1 [start | e]] eqn:Hc.
    - rewrite (runTestSuites_continues host cfg _ m1 start Hc).
      pose proof (after_cases_unrecognised_calls host cfg start m1 Hu) as H.
      apply wp_always in H. simpl in Hcalls. congruence.
    - rewrite (runTestSuites_aborts host cfg _ m1 e Hc). exact Hcalls. }
  split; [exact H |].
  revert H. generalize (trace (fst (runTestSuites host cfg (constructed w)))).
  induction l as [| ev l IH]; [reflexivity |].
  unfold reporter_calls, deliveries in *. simpl.
  destruct ev; simpl; try discriminate; try exact IH.
Qed.

(** X18: what becomes of the diagnostic: it is logged, and the run returns,
    where the assignment of line 96 is allowed to create a global; in
    strict code the assignment raises and the stop line is the last thing
    logged. *)
Lemma unrecognised_reporter_diagnostic (w : World) start :
  unrecognised cfg ->
  shouldSendReport cfg <> Some false ->
  snd (run_cases host cfg (constructed w)) = inl start ->
  let m1 := fst (run_cases host cfg (constructed w)) in
  let m' := fst (runTestSuites host cfg (constructed w)) in
  if implicit_globals host
  then snd (runTestSuites host cfg (constructed w)) = inl tt /\
       logs (trace m') =
       (logs (trace m1) ++ [stop_line host start (now host (world m1));
                            invalid_reporter_message])%list
  else snd (runTestSuites host cfg (constructed w)) =
       inr (Js.ReferenceError "message is not defined") /\
       logs (trace m') =
       (logs (trace m1) ++ [stop_line host start (now host (world m1))])%list.
Proof.
  intros Hu Hflag Hstart. cbv zeta.
  destruct (run_cases host cfg (constructed w)) as [m1 o] eqn:Hc.
  simpl in Hstart. subst o.
  rewrite (runTestSuites_continues host cfg _ m1 start Hc). simpl.
  pose proof (after_cases_unrecognised host cfg start m1 Hu Hflag) as H.
  unfold wp in H.
  destruct (after_cases host cfg start m1) as [m2 [[] | e]]; simpl.
  - destruct H as (_ & -> & H). auto.
  - destruct H as (_ & -> & -> & H). auto.
Qed.

End Gates.

(** * Further properties of the runner *)

(** ** One test, continued *)
Section Outcomes.

Context {World : Type} (host : Host World) (cfg : Config World).

Implicit Types (m : machine World) (scope : TestScope World) (test : TestCase World).

(** What a thrown [send] says about the reporter. *)
Lemma thrown_send_not_quiet type onFinish (s : payload -> action World) p w w' e :
  reporter cfg = reporter_object type onFinish (Some s) ->
  loose_eq type "realtime" = true ->
  s p w = (w', Js.throws e) ->
  ~ quiet_send cfg.
Proof.
  intros Hr Ht Hc Hq. unfold quiet_send in Hq. rewrite Hr in Hq.
  destruct (Hq Ht) as (s' & [= <-] & Hs). absurd_throw.
Qed.

Lemma missing_send_not_quiet type onFinish :
  reporter cfg = reporter_object type onFinish None ->
  loose_eq type "realtime" = true ->
  ~ quiet_send cfg.
Proof.
  intros Hr Ht Hq. unfold quiet_send in Hq. rewrite Hr in Hq.
  destruct (Hq Ht) as (s' & [=] & _).
Qed.

Lemma nullish_not_quiet : reporter cfg = reporter_nullish -> ~ quiet_send cfg.
Proof. intros Hr Hq. unfold quiet_send in Hq. rewrite Hr in Hq. exact Hq. Qed.

(** X1: when the steps before it went through and the body of a test
    fulfils, [runTest] appends the passed result of that test (its labels,
    the success line, no error message, the time since the call began) to
    the results; and unless the streaming to a realtime reporter raises,
    it returns with that one result appended and the error count as it
    was. *)
Theorem runTest_records_success scope test m m1 start w :
  before_try host cfg scope m = (m1, inl start) ->
  f test (self scope) (world m1) = (w, Js.returns) ->
  let r := success_result test start (now host w) in
  let m' := fst (runTest host cfg scope test m) in
  (exists more, results m' = (results m ++ r :: more)%list) /\
  (quiet_send cfg ->
   snd (runTest host cfg scope test m) = inl tt /\
   results m' = (results m ++ [r])%list /\
   errorCount m' = errorCount m).
Proof.
  intros Hb Hf r m'.
  assert (Hwp : wp (runTest host cfg scope test)
                   (fun _ m' => (exists more, results m' = (results m ++ r :: more)%list) /\
                                (quiet_send cfg ->
                                 results m' = (results m ++ [r])%list /\
                                 errorCount m' = errorCount m))
                   (fun _ m' => (exists more, results m' = (results m ++ r :: more)%list) /\
                                ~ quiet_send cfg)
                   m).
  { pose proof (before_try_frame host cfg scope m) as Hframe.
    unfold wp in Hframe. rewrite Hb in Hframe.
    destruct Hframe as (Hstart & Hres & Hcount).
    unfold runTest. apply wp_bind. unfold wp at 1. rewrite Hb.
    unfold try_block, catch_block, send_if_realtime.
    wp_run.
    all: match goal with
         | H : f _ _ (world _) = (_, _ ) |- _ =>
             rewrite Hf in H; inversion H; subst; clear H
         end.
    all: rewrite ?Hres, ?Hcount, <- ?app_assoc.
    all: (split; [eexists; reflexivity |]).
    all: try (intros _; split; reflexivity).
    all: try (apply nullish_not_quiet; assumption).
    all: try (eapply missing_send_not_quiet; eassumption).
    all: try (eapply thrown_send_not_quiet; eassumption).
    all: intros Hq; exfalso; revert Hq.
    all: try (eapply missing_send_not_quiet; eassumption).
    all: eapply thrown_send_not_quiet; eassumption. }
  unfold wp in Hwp. subst m'.
  destruct (runTest host cfg scope test m) as [m2 [[] | e]]; simpl.
  - destruct Hwp as [Hmore Hq]. split; [exact Hmore |].
    intros H. destruct (Hq H). auto.
  - destruct Hwp as [Hmore Hn]. split; [exact Hmore | intros H; contradiction].
Qed.

End Outcomes.

(** ** Errors that are not recorded *)
Section Escapes.

Context {World : Type} (host : Host World) (cfg : Config World).

Implicit Types (m : machine World) (scope : TestScope World) (test : TestCase World).

(** X2: a test body that throws, or rejects with, [null] or [undefined] is
    not recorded as a failure.  The handler raises on reading [e.message]
    before it logs or stores anything, and that error leaves [runTest]:
    no result, no warning line, no count, no call to the reporter. *)
Theorem nullish_failure_escapes scope test m m1 start w c :
  before_try host cfg scope m = (m1, inl start) ->
  f test (self scope) (world m1) = (w, c) ->
  c = Js.rejects Js.nullish \/ c = Js.throws Js.nullish ->
  let m' := fst (runTest host cfg scope test m) in
  snd (runTest host cfg scope test m) =
  inr (Js.TypeError "Cannot read property 'message' of undefined") /\
  results m' = results m /\
  errorCount m' = errorCount m /\
  warnings (trace m') = warnings (trace m1) /\
  reporter_calls (trace m') = reporter_calls (trace m1).
Proof.
  intros Hb Hf Hc m'.
  assert (Hwp : wp (runTest host cfg scope test)
                   (fun _ _ => False)
                   (fun e m' =>
                      e = Js.TypeError "Cannot read property 'message' of undefined" /\
                      results m' = results m /\
                      errorCount m' = errorCount m /\
                      warnings (trace m') = warnings (trace m1) /\
                      reporter_calls (trace m') = reporter_calls (trace m1))
                   m).
  { pose proof (before_try_frame host cfg scope m) as Hframe.
    unfold wp in Hframe. rewrite Hb in Hframe.
    destruct Hframe as (_ & Hres & Hcount).
    unfold runTest. apply wp_bind. unfold wp at 1. rewrite Hb.
    unfold try_block, catch_block, send_if_realtime.
    wp_run.
    all: match goal with
         | H : f _ _ (world _) = (_, _ ) |- _ =>
             rewrite Hf in H; inversion H; subst; clear H
         end.
    all: destruct Hc as [Hc | Hc]; try discriminate Hc.
    all: unfold warnings, reporter_calls; rewrite ?collect_app;
      cbn [collect flat_map app warning reporter_call]; rewrite ?app_nil_r;
      auto. }
  unfold wp in Hwp. subst m'.
  destruct (runTest host cfg scope test m) as [m2 [[] | e']]; simpl.
  - destruct Hwp.
  - destruct Hwp as (-> & H). auto.
Qed.

(** X3: the promise of [reRender] is not awaited.  When the steps before
    it fulfil and [reRender] returns a promise that rejects, the rejection
    is lost: the steps before the [try] end normally, in the world
    [reRender] left, and the body of the test is called. *)
Theorem reRender_is_not_awaited scope test m w1 w2 w3 e :
  clearAsync (component cfg) (world m) = (w1, Js.returns) ->
  match beforeEach scope with
  | Some hook => hook (self scope) w1 = (w2, Js.returns)
  | None => w2 = w1
  end ->
  reRender (component cfg) w2 = (w3, Js.rejects e) ->
  snd (before_try host cfg scope m) = inl (now host (world m)) /\
  world (fst (before_try host cfg scope m)) = w3 /\
  In (call_f (self scope)) (trace (fst (runTest host cfg scope test m))).
Proof.
  intros Hc Hh Hr.
  assert (Hb : snd (before_try host cfg scope m) = inl (now host (world m)) /\
               world (fst (before_try host cfg scope m)) = w3).
  { assert (Hwp : wp (before_try host cfg scope)
                     (fun start m' => start = now host (world m) /\ world m' = w3)
                     (fun _ _ => False) m).
    { unfold before_try.
      destruct (beforeEach scope) as [hook |]; [| subst w2]; wp_run.
      all: repeat match goal with
                  | H : ?a ?w = (_, _), H' : ?a ?w = (_, _) |- _ =>
                      rewrite H' in H; inversion H; subst; clear H
                  end.
      all: auto. }
    unfold wp in Hwp.
    destruct (before_try host cfg scope m) as [m1 [start | e1]]; simpl.
    - destruct Hwp as [-> ->]. auto.
    - destruct Hwp. }
  destruct Hb as [Hout Hw]. repeat split; [exact Hout | exact Hw |].
  unfold runTest, bind at 1.
  destruct (before_try host cfg scope m) as [m1 [start | e1]];
    simpl in Hout; [| discriminate Hout].
  apply (wp_always _ (fun m' => In (call_f (self scope)) (trace m'))).
  unfold try_block, catch_block. wp_run.
  all: rewrite <- ?app_assoc; apply in_or_app; right; left; reflexivity.
Qed.

End Escapes.

(** ** Runs that stop early, and runs with nothing to do *)
Section Extent.

Context {World : Type} (host : Host World) (cfg : Config World).

Implicit Types (m : machine World) (w : World).

Lemma wp_throws_at {A} (c : M World A) Q E m e :
  wp c Q E m -> snd (c m) = inr e -> E e (fst (c m)).
Proof. unfold wp. destruct (c m) as [m' [a' | e']]; simpl; intros H [= <-]; exact H. Qed.

Lemma filter_nil_all {A} (p : A -> bool) (l : list A) :
  (forall x, In x l -> p x = false) -> List.filter p l = [].
Proof.
  induction l as [| a l IH]; intros H; [reflexivity |]. simpl.
  rewrite (H a (or_introl eq_refl)). apply IH. intros x Hx. apply H. right. exact Hx.
Qed.

(** X5: nothing in [runTestSuites] catches what leaves [runTest].  When a
    call of [runTest] raises, the run raises the same error there and then:
    the tests selected after that one are not run, the stop line is not
    logged and no report is handed to the reporter. *)
Theorem escaped_error_ends_the_run w e :
  snd (run_cases host cfg (constructed w)) = inr e ->
  let m1 := fst (run_cases host cfg (constructed w)) in
  let m' := fst (runTestSuites host cfg (constructed w)) in
  snd (runTestSuites host cfg (constructed w)) = inr e /\
  m' = m1 /\
  deliveries (trace m') = [] /\
  exists pre rest,
    selected cfg = (pre ++ rest)%list /\ pre <> [] /\
    invocations (trace m') = map index_of pre.
Proof.
  intros He. cbv zeta.
  pose proof (run_cases_deliveries host cfg (constructed w)) as Hd.
  apply wp_always in Hd.
  pose proof (run_cases_invocations host cfg (constructed w)) as Hi.
  apply (wp_throws_at _ _ _ _ e) in Hi; [| exact He].
  destruct (run_cases host cfg (constructed w)) as [m1 o] eqn:Hc.
  simpl in He. subst o.
  rewrite (runTestSuites_aborts host cfg _ m1 e Hc). simpl in *.
  repeat split; [exact Hd |].
  destruct Hi as (pre & [rest Hpre] & Hne & Hinv).
  exists pre, rest. auto.
Qed.

Lemma for_testCases_none i scope cases :
  (forall test, In test cases -> should_run cfg (tag test) = false) ->
  forall j m, for_testCases host cfg i scope j cases m = (m, inl tt).
Proof.
  induction cases as [| test rest IH]; intros Hnone j m; [reflexivity |].
  simpl. unfold bind. rewrite (Hnone test (or_introl eq_refl)). simpl.
  apply IH. intros t Ht. apply Hnone. right. exact Ht.
Qed.

Lemma for_testSuites_none suites :
  (forall tag, should_run cfg tag = false) ->
  forall i m, for_testSuites host cfg i suites m = (m, inl tt).
Proof.
  intros Hnone. induction suites as [| scope rest IH]; intros i m; [reflexivity |].
  simpl. unfold bind. rewrite for_testCases_none; [apply IH | auto].
Qed.

(** X7: an empty array as filter is not "no filter": it selects no test.
    Whatever the suites, the component and the reporter, the loops then
    call nothing and record nothing; they return at once, with only the
    start line logged. *)
Theorem empty_filter_runs_nothing m :
  filter cfg = Some [] ->
  selected cfg = [] /\
  run_cases host cfg m = (started host m, inl (now host (world m))).
Proof.
  intros HF.
  assert (Hnone : forall tag, should_run cfg tag = false).
  { intros tag. unfold should_run. rewrite HF. simpl. destruct tag; reflexivity. }
  split.
  - rewrite selected_filter. apply filter_nil_all.
    intros s _. apply Hnone.
  - unfold run_cases, bind, new_Date, emit. cbn [world].
    rewrite for_testSuites_none by exact Hnone. reflexivity.
Qed.

Lemma for_testSuites_skips suites :
  (forall scope test,
     In scope suites -> In test (testCases scope) ->
     should_run cfg (tag test) = false) ->
  forall i m, for_testSuites host cfg i suites m = (m, inl tt).
Proof.
  induction suites as [| scope rest IH]; intros Hnone i m; [reflexivity |].
  simpl. unfold bind. rewrite for_testCases_none.
  - apply IH. intros s t Hs. apply Hnone. right. exact Hs.
  - intros t Ht. apply (Hnone scope t); [left; reflexivity | exact Ht].
Qed.

Lemma nothing_selected :
  selected cfg = [] ->
  forall scope test,
    In scope (testSuites cfg) -> In test (testCases scope) ->
    should_run cfg (tag test) = false.
Proof.
  intros Hsel scope test Hs Ht.
  destruct (In_nth_error _ _ Hs) as [i Hi].
  destruct (In_nth_error _ _ Ht) as [j Hj].
  destruct (should_run cfg (tag test)) eqn:Hrun; [| reflexivity].
  assert (H : In ((i, j), (scope, test)) (selected cfg))
    by (apply selected_In; auto).
  rewrite Hsel in H. destruct H.
Qed.

(** X8: a runner that selects no test still reports, whether it has no
    suite, suites without tests, or a filter that no tag passes.  With a
    function as reporter and no [sendReport] prop, the loops call nothing,
    and the whole run is: the start line, the stop line, and the reporter
    applied once, in the world the run started in, to a report that has no
    results and no errors; the call is awaited, the run ends as it ends. *)
Theorem no_suites_empty_report w g :
  selected cfg = [] ->
  reporter cfg = reporter_function g ->
  shouldSendReport cfg = None ->
  let report := report_of host (now host w) (started host (constructed w)) in
  runTestSuites host cfg (constructed w) =
  ({| world := fst (g report w); results := []; errorCount := 0;
      trace := [console_log (start_line host (now host w));
                console_log (stop_line host (now host w) (now host w));
                call_reporter report] |},
   awaited (snd (g report w))) /\
  Report.results report = [] /\
  Report.errorCount report = 0.
Proof.
  intros Hsel Hr Hflag. cbv zeta.
  assert (Hc : run_cases host cfg (constructed w) =
               (started host (constructed w), inl (now host w))).
  { unfold run_cases, bind, new_Date, emit. cbn [world].
    rewrite for_testSuites_skips by (apply nothing_selected; exact Hsel).
    reflexivity. }
  rewrite (runTestSuites_continues host cfg _ _ _ Hc).
  rewrite (after_cases_function host cfg g _ _ Hr Hflag).
  repeat split.
Qed.

End Extent.

(** ** What the results and the console hold *)
Section Records.

Context {World : Type} (host : Host World) (cfg : Config World).

Implicit Types (m : machine World) (w : World).

(** X6: in a run whose loops return, with a reporter whose per-test [send]
    does not throw, the results are, one for one and in order, those of the
    tests that pass the filter: each carries the labels of its test, and a
    test the filter leaves out has no result. *)
Theorem results_follow_selection w :
  quiet_send cfg ->
  completes (run_cases host cfg) (constructed w) ->
  Forall2 result_of (selected cfg)
          (results (fst (runTestSuites host cfg (constructed w)))).
Proof.
  intros Hq [start Hstart].
  destruct (run_frame host cfg (constructed w)) as (-> & _).
  pose (Inv := fun (acc : list (selection World)) (m' : machine World) =>
                 Forall2 result_of acc (results m')).
  assert (H : wp (run_cases host cfg) (fun _ => Inv (selected cfg)) (fun _ _ => True)
                 (constructed w)).
  { eapply wp_mono;
      [apply (run_cases_rule host cfg Inv (fun _ _ _ => True)) | |].
    - intros acc i j scope test m0 _ _ _ Hinv.
      apply wp_bind, wp_emit.
      eapply wp_mono; [apply (runTest_one_result host cfg scope test _ Hq) | |];
        cbv beta; [| auto].
      intros ? m' (r & Hr & Hd & Hl & _). unfold Inv. rewrite Hr. simpl.
      apply Forall2_app; [exact Hinv |].
      constructor; [split; assumption | constructor].
    - constructor.
    - intros ? m' [_ Hinv]. exact Hinv.
    - auto. }
  apply (wp_returns _ _ _ _ start) in H; [exact H | exact Hstart].
Qed.

Lemma filter_snoc {A} (p : A -> bool) (l : list A) (a : A) :
  List.filter p (l ++ [a]) = (List.filter p l ++ if p a then [a] else [])%list.
Proof. rewrite filter_app. simpl. destruct (p a); reflexivity. Qed.

Lemma runTest_console scope test m lines :
  console_matches m lines ->
  wp (runTest host cfg scope test)
     (fun _ m' => console_matches m' lines)
     (fun _ m' => console_matches m' lines)
     m.
Proof.
  unfold console_matches. intros [Hl Hw].
  unfold runTest, before_try, try_block, catch_block, send_if_realtime.
  wp_run.
  all: unfold logs, warnings in *; rewrite ?collect_app, ?filter_snoc, ?map_app;
    cbn [collect flat_map app logged warning Result.passed Result.failed negb map
         Result.message];
    rewrite ?app_nil_r, ?Hl, ?Hw, <- ?app_assoc; split; reflexivity.
Qed.

(** X9: what the console shows of the tests is what the results hold.
    However the loops end, the lines logged after the start line are the
    messages of the passed results, in order, and the warnings are the
    messages of the failed results, in order. *)
Theorem console_lines_match_results w :
  console_matches (fst (run_cases host cfg (constructed w)))
                  [start_line host (now host w)].
Proof.
  pose (Inv := fun (acc : list (selection World)) (m' : machine World) =>
                 console_matches m' [start_line host (now host w)]).
  apply (wp_always _ (fun m' => console_matches m' [start_line host (now host w)])).
  eapply wp_mono;
    [apply (run_cases_rule host cfg Inv (fun acc _ => Inv acc)) | |].
  - intros acc i j scope test m0 _ _ _ [Hl Hw].
    apply wp_bind, wp_emit. apply runTest_console.
    unfold console_matches, logs, warnings in *. simpl.
    rewrite !collect_app, Hl, Hw. simpl. rewrite !app_nil_r. auto.
  - unfold Inv, console_matches. split; reflexivity.
  - intros start m' [_ H]. exact H.
  - intros e m' (pre & _ & _ & H). exact H.
Qed.

Lemma runTest_results_shape scope test m :
  wp (runTest host cfg scope test)
     (fun _ m' => exists rs,
                    results m' = (results m ++ rs)%list /\
                    Forall (fun r => well_formed r /\
                                     Result.describeLabel r = describeLabel test /\
                                     Result.description r = description_of test) rs)
     (fun _ m' => exists rs,
                    results m' = (results m ++ rs)%list /\
                    Forall (fun r => well_formed r /\
                                     Result.describeLabel r = describeLabel test /\
                                     Result.description r = description_of test) rs)
     m.
Proof.
  unfold runTest, before_try, try_block, catch_block, send_if_realtime.
  wp_run.
  all: rewrite <- ?app_assoc; eexists; (split; [symmetry; apply app_nil_r || reflexivity |]).
  all: repeat constructor.
  all: unfold well_formed; cbn [Result.passed Result.errorMessage Result.message
                                 Result.description];
    eauto.
Qed.

(** X10: every result a run records has one of two shapes, passed with the
    success line and no error message, or failed with an error message and
    the failure line built from it; and it carries the labels of a test
    that passes the filter.  This holds however the run ends. *)
Theorem results_are_well_formed w :
  Forall (fun r => well_formed r /\ exists s, In s (selected cfg) /\ result_of s r)
         (results (fst (runTestSuites host cfg (constructed w)))).
Proof.
  destruct (run_frame host cfg (constructed w)) as (-> & _).
  pose (Inv := fun (acc : list (selection World)) (m' : machine World) =>
                 Forall (fun r => well_formed r /\ exists s, In s acc /\ result_of s r)
                        (results m')).
  assert (H : wp (run_cases host cfg)
                 (fun _ => Inv (selected cfg))
                 (fun _ m' => exists pre, prefix pre (selected cfg) /\ Inv pre m')
                 (constructed w)).
  { eapply wp_mono;
      [apply (run_cases_rule host cfg Inv (fun acc _ => Inv acc)) | |].
    - intros acc i j scope test m0 _ _ _ Hinv.
      apply wp_bind, wp_emit.
      assert (Hstep : forall m' : machine World,
                 (exists rs,
                    results m' = (results m0 ++ rs)%list /\
                    Forall (fun r => well_formed r /\
                                     Result.describeLabel r = describeLabel test /\
                                     Result.description r = description_of test) rs) ->
                 Inv (acc ++ [((i, j), (scope, test))])%list m').
      { intros m' (rs & Heq & Hrs). unfold Inv in *. rewrite Heq.
        apply Forall_app. split.
        - eapply Forall_impl; [| exact Hinv].
          intros r (Hwf & s & Hs & Hr). split; [exact Hwf |].
          exists s. split; [apply in_or_app; left; exact Hs | exact Hr].
        - eapply Forall_impl; [| exact Hrs].
          intros r (Hwf & Hl & Hd). split; [exact Hwf |].
          exists ((i, j), (scope, test)). split.
          + apply in_or_app. right. left. reflexivity.
          + split; assumption. }
      eapply wp_mono; [apply (runTest_results_shape scope test) | |];
        cbv beta; intros ? m' Hm'; apply Hstep; exact Hm'.
    - constructor.
    - intros start m' [_ Hinv]. exact Hinv.
    - intros e m' (pre & Hpre & _ & Hinv). exists pre. auto. }
  assert (Hweak : forall pre (m' : machine World),
             prefix pre (selected cfg) -> Inv pre m' -> Inv (selected cfg) m').
  { intros pre m' [rest Hpre] Hinv. unfold Inv in *.
    eapply Forall_impl; [| exact Hinv].
    intros r (Hwf & s & Hs & Hr). split; [exact Hwf |].
    exists s. split; [rewrite Hpre; apply in_or_app; left; exact Hs | exact Hr]. }
  unfold wp in H.
  destruct (run_cases host cfg (constructed w)) as [m1 [start | e]]; simpl.
  - exact H.
  - destruct H as (pre & Hpre & Hinv). exact (Hweak pre m1 Hpre Hinv).
Qed.

End Records.

(** ** The hand-over of the report *)
Section HandOver.

Context {World : Type} (host : Host World) (cfg : Config World).

Implicit Types (m : machine World) (w : World).

Ltac resolve_reporter :=
  unfold hands_over;
  repeat match goal with
         | H : reporter cfg = _ |- _ => rewrite H; clear H
         end;
  repeat match goal with
         | H : loose_eq _ _ = _ |- _ => rewrite H; clear H
         end;
  cbn [truthy].

(** After the loops: at most one hand-over, and the deprecation warning
    exactly when the prop was given. *)
Lemma after_cases_deliveries start m :
  shouldSendReport cfg <> Some false ->
  wp (after_cases host cfg start)
     (fun _ m' =>
        deliveries (trace m') =
        (deliveries (trace m) ++ if hands_over cfg then [report_of host start m] else [])%list /\
        warnings (trace m') =
        (warnings (trace m) ++ if truthy (shouldSendReport cfg)
                               then [deprecation_message] else [])%list)
     (fun _ m' =>
        deliveries (trace m') =
        (deliveries (trace m) ++ if hands_over cfg then [report_of host start m] else [])%list /\
        warnings (trace m') =
        (warnings (trace m) ++ if truthy (shouldSendReport cfg)
                               then [deprecation_message] else [])%list)
     m.
Proof.
  intros Hflag. unfold after_cases, send_report.
  destruct (shouldSendReport cfg) as [[|] |]; [| congruence |].
  all: wp_run.
  all: resolve_reporter.
  all: unfold deliveries, warnings; rewrite ?collect_app;
    cbn [collect flat_map app delivery warning truthy]; rewrite ?app_nil_r;
    split; reflexivity.
Qed.

(** X12: in a run whose loops return and whose [sendReport] prop is not
    false, the report is handed over exactly once when the dispatch finds
    something to call (the reporter itself if it is a function, [onFinish]
    of a realtime reporter, [send] of a deferred one), and never
    otherwise; the report is the one built from the results and the error
    count at the end of the loops. *)
Theorem report_handed_over_once w start :
  shouldSendReport cfg <> Some false ->
  snd (run_cases host cfg (constructed w)) = inl start ->
  let m1 := fst (run_cases host cfg (constructed w)) in
  deliveries (trace (fst (runTestSuites host cfg (constructed w)))) =
  if hands_over cfg then [report_of host start m1] else [].
Proof.
  intros Hflag Hstart. cbv zeta.
  pose proof (run_cases_deliveries host cfg (constructed w)) as Hd.
  apply wp_always in Hd.
  destruct (run_cases host cfg (constructed w)) as [m1 o] eqn:Hc.
  simpl in Hstart. subst o.
  rewrite (runTestSuites_continues host cfg _ m1 start Hc). simpl in *.
  pose proof (after_cases_deliveries start m1 Hflag) as H.
  apply (wp_always _ (fun m' => deliveries (trace m') = _ /\ warnings (trace m') = _)) in H.
  destruct H as [H _]. rewrite H, Hd. reflexivity.
Qed.

(** X13: a [sendReport] prop that is true changes one thing: the
    deprecation warning is given after the stop line.  The report is
    handed over as without the prop. *)
Theorem legacy_true_warns_and_reports w start :
  shouldSendReport cfg = Some true ->
  snd (run_cases host cfg (constructed w)) = inl start ->
  let m1 := fst (run_cases host cfg (constructed w)) in
  let m' := fst (runTestSuites host cfg (constructed w)) in
  warnings (trace m') = (warnings (trace m1) ++ [deprecation_message])%list /\
  deliveries (trace m') = if hands_over cfg then [report_of host start m1] else [].
Proof.
  intros Hflag Hstart. cbv zeta.
  assert (Hnot : shouldSendReport cfg <> Some false) by congruence.
  pose proof (run_cases_deliveries host cfg (constructed w)) as Hd.
  apply wp_always in Hd.
  destruct (run_cases host cfg (constructed w)) as [m1 o] eqn:Hc.
  simpl in Hstart. subst o.
  rewrite (runTestSuites_continues host cfg _ m1 start Hc). simpl in *.
  pose proof (after_cases_deliveries start m1 Hnot) as H.
  apply (wp_always _ (fun m' => deliveries (trace m') = _ /\ warnings (trace m') = _)) in H.
  destruct H as [H1 H2]. rewrite H1, H2, Hd, Hflag. split; reflexivity.
Qed.

(** X14: whatever the run, the suites and the reporter, at most one report
    is handed over, and a report that is handed over agrees with itself:
    its [errorCount] is the number of its results with [passed] false, its
    [fullResults.testCases] are its [results] and [fullResults.time] is its
    [duration]. *)
Theorem delivered_report_is_consistent w :
  let handed := deliveries (trace (fst (runTestSuites host cfg (constructed w)))) in
  List.length handed <= 1 /\ Forall consistent_report handed.
Proof.
  cbv zeta.
  pose proof (run_cases_deliveries host cfg (constructed w)) as Hd.
  apply wp_always in Hd.
  pose proof (run_cases_counts host cfg (constructed w) eq_refl) as Hb.
  destruct (run_cases host cfg (constructed w)) as [m1 [start | e]] eqn:Hc.
  - rewrite (runTestSuites_continues host cfg _ m1 start Hc).
    unfold wp in Hb. rewrite Hc in Hb. simpl in Hd.
    destruct (shouldSendReport cfg) as [[|] |] eqn:Hflag.
    2: { rewrite (after_cases_legacy_false host cfg start m1 Hflag). simpl.
         unfold deliveries in *. rewrite collect_app, Hd. simpl.
         split; [lia | constructor]. }
    all: assert (Hnot : shouldSendReport cfg <> Some false) by congruence.
    all: pose proof (after_cases_deliveries start m1 Hnot) as H.
    all: apply (wp_always _ (fun m' => deliveries (trace m') = _ /\ warnings (trace m') = _))
           in H.
    all: destruct H as [H _]; rewrite H, Hd; simpl.
    all: destruct (hands_over cfg); simpl; (split; [lia |]).
    all: repeat constructor; exact Hb.
  - rewrite (runTestSuites_aborts host cfg _ m1 e Hc). simpl in *. rewrite Hd.
    simpl. split; [lia | constructor].
Qed.

(** X11: a deferred reporter (an object of type 'deferred' with a [send])
    is called once in a run whose loops return: [send] is applied to the
    whole report, in the world the loops left, as the last thing the run
    does, and it is awaited, the run ends as it ends; nothing is sent to it
    while the tests run. *)
Theorem deferred_reporter_receives_report_once w type onFinish send start :
  reporter cfg = reporter_object type onFinish (Some send) ->
  loose_eq type "realtime" = false ->
  loose_eq type "deferred" = true ->
  shouldSendReport cfg <> Some false ->
  snd (run_cases host cfg (constructed w)) = inl start ->
  let m1 := fst (run_cases host cfg (constructed w)) in
  let m' := fst (runTestSuites host cfg (constructed w)) in
  reporter_calls (trace m') = [call_send (whole (report_of host start m1))] /\
  last (trace m') (console_log "") = call_send (whole (report_of host start m1)) /\
  world m' = fst (send (whole (report_of host start m1)) (world m1)) /\
  snd (runTestSuites host cfg (constructed w)) =
  awaited (snd (send (whole (report_of host start m1)) (world m1))).
Proof.
  intros Hr Hrt Hdf Hflag Hstart. cbv zeta.
  assert (Hnr : not_realtime cfg) by (unfold not_realtime; rewrite Hr; exact Hrt).
  pose proof (run_cases_not_realtime host cfg (constructed w) Hnr) as Hcalls.
  apply wp_always in Hcalls.
  destruct (run_cases host cfg (constructed w)) as [m1 o] eqn:Hc.
  simpl in Hstart. subst o.
  rewrite (runTestSuites_continues host cfg _ m1 start Hc). simpl in *.
  destruct (after_cases_deferred_call host cfg type onFinish send start m1
              Hr Hrt Hdf Hflag) as [Hw Ho].
  assert (H : reporter_calls (trace (fst (after_cases host cfg start m1))) =
              [call_send (whole (report_of host start m1))] /\
              last (trace (fst (after_cases host cfg start m1))) (console_log "") =
              call_send (whole (report_of host start m1))).
  { apply (wp_always _ (fun m' =>
             reporter_calls (trace m') = [call_send (whole (report_of host start m1))] /\
             last (trace m') (console_log "") = call_send (whole (report_of host start m1)))).
    unfold after_cases, send_report. rewrite Hr, Hrt, Hdf.
    destruct (shouldSendReport cfg) as [[|] |]; [| congruence |].
    all: wp_run.
    all: unfold reporter_calls in *; rewrite ?collect_app, Hcalls;
      cbn [collect flat_map app reporter_call]; (split; [reflexivity |]).
    all: apply last_last. }
  destruct H as [H1 H2].
  split; [exact H1 | split; [exact H2 | split; [exact Hw | exact Ho]]].
Qed.

(** X15: a realtime reporter without [onFinish], or a deferred one without
    [send], gets no report: in a run whose loops return the hand-over raises
    a TypeError (the member is not a function) and the run ends with it. *)
Theorem missing_member_raises w type onFinish send start name :
  reporter cfg = reporter_object type onFinish send ->
  (loose_eq type "realtime" = true /\ onFinish = None /\
   name = "this.reporter.onFinish") \/
  (loose_eq type "realtime" = false /\ loose_eq type "deferred" = true /\
   send = None /\ name = "this.reporter.send") ->
  shouldSendReport cfg <> Some false ->
  snd (run_cases host cfg (constructed w)) = inl start ->
  snd (runTestSuites host cfg (constructed w)) =
  inr (Js.TypeError (name ++ " is not a function")) /\
  deliveries (trace (fst (runTestSuites host cfg (constructed w)))) = [].
Proof.
  intros Hr Hshape Hflag Hstart.
  pose proof (run_cases_deliveries host cfg (constructed w)) as Hd.
  apply wp_always in Hd.
  destruct (run_cases host cfg (constructed w)) as [m1 o] eqn:Hc.
  simpl in Hstart. subst o.
  rewrite (runTestSuites_continues host cfg _ m1 start Hc). simpl in *.
  assert (H : wp (after_cases host cfg start)
                 (fun _ _ => False)
                 (fun e m' => e = Js.TypeError (name ++ " is not a function") /\
                              deliveries (trace m') = [])
                 m1).
  { unfold after_cases, send_report. rewrite Hr.
    destruct Hshape as [(Hrt & -> & ->) | (Hrt & Hdf & -> & ->)];
      rewrite Hrt, ?Hdf;
      (destruct (shouldSendReport cfg) as [[|] |]; [| congruence |]).
    all: wp_run.
    all: unfold deliveries in *; rewrite ?collect_app, Hd;
      cbn [collect flat_map app delivery]; split; reflexivity. }
  unfold wp in H.
  destruct (after_cases host cfg start m1) as [m2 [[] | e]]; simpl.
  - destruct H.
  - destruct H as [-> H]. auto.
Qed.

End HandOver.

(** * The claims on concrete runs *)

(** The example of the spec: A throws "boom", B succeeds. *)
Example boom_then_success :
  let m' := fst (Demo.run Demo.boom_run) in
  map (fun r => (Result.passed r, Result.errorMessage r)) (results m') =
  [(false, Some (Js.str "boom")); (true, None)] /\
  errorCount m' = 1.
Proof. vm_compute. split; reflexivity. Qed.

(** C1 as stated fails: a rejection of [clearAsync] (step 2) is not turned
    into a result.  It leaves [runTest], no result is recorded, the second
    test is never reached and the reporter is never called. *)
Lemma setup_failure_escapes_runTest :
  let m := constructed Demo.start_world in
  snd (runTest Demo.host Demo.broken_run Demo.boom_suite Demo.test_A m) =
  inr (Js.object (Js.str "storage unavailable")) /\
  results (fst (runTest Demo.host Demo.broken_run Demo.boom_suite Demo.test_A m)) = [] /\
  snd (Demo.run Demo.broken_run) = inr (Js.object (Js.str "storage unavailable")) /\
  results (fst (Demo.run Demo.broken_run)) = [] /\
  invocations (trace (fst (Demo.run Demo.broken_run))) = [(0, 0)] /\
  reporter_calls (trace (fst (Demo.run Demo.broken_run))) = [].
Proof. vm_compute. repeat split. Qed.

(** Test A of the spec's example: its body rejects with "boom" after the
    steps before it went through. *)
Lemma runTest_contains_body_failure_witness :
  let m := constructed Demo.start_world in
  let m' := fst (runTest Demo.host Demo.boom_run Demo.boom_suite Demo.test_A m) in
  let r := failed_result Demo.test_A 1000 1003 (Js.str "boom") in
  results m' = [r] /\
  Result.passed r = false /\
  Result.errorMessage r = Some (Js.str "boom") /\
  (quiet_send Demo.boom_run ->
   snd (runTest Demo.host Demo.boom_run Demo.boom_suite Demo.test_A m) = inl tt /\
   errorCount m' = 1).
Proof.
  exact (runTest_contains_body_failure Demo.host Demo.boom_run Demo.boom_suite
           Demo.test_A (constructed Demo.start_world) Demo.after_setup 1000%Z
           Demo.after_boom (Js.rejects (Js.object (Js.str "boom"))) (Js.str "boom")
           eq_refl eq_refl (or_introl eq_refl)).
Defined.

(** C2 on a failing input: a realtime reporter, [sendReport] false, one
    passing test.  The run warns and builds no report, yet the reporter's
    [send] is called with the test's result. *)
Theorem legacy_false_still_streams :
  let m' := fst (Demo.run Demo.legacy_realtime_run) in
  snd (Demo.run Demo.legacy_realtime_run) = inl tt /\
  warnings (trace m') = [deprecation_message] /\
  deliveries (trace m') = [] /\
  reporter_calls (trace m') =
  [call_send (fragment (successMsg_of (description_of Demo.single_test)) true)].
Proof. vm_compute. repeat split. Qed.

(** C3 as stated fails: [null] matches none of the three shapes, and the
    run neither logs the diagnostic nor returns; it raises. *)
Lemma missing_reporter_is_not_diagnosed :
  snd (Demo.run Demo.no_reporter_no_suite_run) = inr type_of_nullish /\
  ~ In invalid_reporter_message
       (logs (trace (fst (Demo.run Demo.no_reporter_no_suite_run)))).
Proof.
  split.
  - vm_compute. reflexivity.
  - vm_compute. intros [H | [H | []]]; discriminate H.
Qed.

(** A reporter of type 'batch'. *)
Lemma unrecognised_reporter_receives_nothing_witness :
  unrecognised Demo.odd_reporter_run /\
  reporter_calls (trace (fst (Demo.run Demo.odd_reporter_run))) = [] /\
  deliveries (trace (fst (Demo.run Demo.odd_reporter_run))) = [].
Proof.
  split.
  - split; reflexivity.
  - apply (unrecognised_reporter_receives_nothing Demo.host Demo.odd_reporter_run
             Demo.start_world).
    split; reflexivity.
Defined.

(** C4 as stated fails: [clearAsync] rejects in the first test, the error
    leaves the loops, and the test tagged "slow", whose tag is in the
    filter, is never executed; without a filter, test B is not. *)
Lemma selected_test_not_reached :
  let executed := invocations (trace (fst (Demo.run Demo.broken_tagged_run))) in
  filter Demo.broken_tagged_run = Some ["smoke"; "slow"] /\
  nth_error (testSuites Demo.broken_tagged_run) 0 = Some Demo.tagged_suite /\
  nth_error (testCases Demo.tagged_suite) 2 = Some Demo.slow_test /\
  tag Demo.slow_test = Some "slow" /\
  In "slow" ["smoke"; "slow"] /\
  executed = [(0, 0)] /\
  ~ In (0, 2) executed /\
  filter Demo.broken_run = None /\
  nth_error (testSuites Demo.broken_run) 0 = Some Demo.boom_suite /\
  nth_error (testCases Demo.boom_suite) 1 = Some Demo.test_B /\
  ~ In (0, 1) (invocations (trace (fst (Demo.run Demo.broken_run)))).
Proof.
  vm_compute.
  repeat (split; [reflexivity |]).
  split; [right; left; reflexivity |].
  split; [reflexivity |].
  split; [intros [H | []]; discriminate H |].
  repeat (split; [reflexivity |]).
  intros [H | []]; discriminate H.
Qed.

(** Under the filter [["smoke"]]: the test tagged "smoke" runs, the
    untagged one does not. *)
Lemma filter_decides_execution_witness :
  let executed := invocations (trace (fst (Demo.run Demo.tagged_run))) in
  In (0, 0) executed /\ ~ In (0, 1) executed.
Proof.
  assert (Hc : completes (run_cases Demo.host Demo.tagged_run)
                 (constructed Demo.start_world))
    by (exists 1000%Z; vm_compute; reflexivity).
  pose proof (filter_decides_execution Demo.host Demo.tagged_run Demo.start_world
                0 0 Demo.tagged_suite Demo.smoke_test eq_refl eq_refl) as Hsmoke.
  pose proof (filter_decides_execution Demo.host Demo.tagged_run Demo.start_world
                0 1 Demo.tagged_suite Demo.untagged_test eq_refl eq_refl)
    as Huntagged.
  split.
  - apply (proj2 (proj2 Hsmoke) Hc).
    exists "smoke". split; [reflexivity | left; reflexivity].
  - exact (proj1 (proj2 Huntagged) eq_refl).
Defined.

(** C5 as stated fails: without a reporter, the failure handler records
    the failed result of test A and is then interrupted before it counts
    it. *)
Lemma counter_left_behind :
  let m' := fst (Demo.run Demo.no_reporter_run) in
  failures (results m') = 1 /\ errorCount m' = 0.
Proof. vm_compute. split; reflexivity. Qed.

(** The run of the spec's example ends with one failure, counted; the call
    of [runTest] for test A, whose body rejects, adds one failed result
    and one to the counter. *)
Lemma errorCount_counts_failures_witness :
  let m := constructed Demo.start_world in
  let m1 := fst (runTest Demo.host Demo.boom_run Demo.boom_suite Demo.test_A m) in
  completes (run_cases Demo.host Demo.boom_run) (constructed Demo.start_world) /\
  balanced (fst (Demo.run Demo.boom_run)) /\
  completes (runTest Demo.host Demo.boom_run Demo.boom_suite Demo.test_A) m /\
  (exists rs, results m1 = (results m ++ rs)%list /\ failures rs <= 1 /\
              errorCount m1 = errorCount m + failures rs) /\
  errorCount m1 = errorCount m + 1.
Proof.
  assert (H : completes (run_cases Demo.host Demo.boom_run) (constructed Demo.start_world))
    by (exists 1000%Z; vm_compute; reflexivity).
  assert (HA : completes (runTest Demo.host Demo.boom_run Demo.boom_suite Demo.test_A)
                 (constructed Demo.start_world))
    by (exists tt; vm_compute; reflexivity).
  pose proof (errorCount_counts_failures Demo.host Demo.boom_run Demo.start_world)
    as (Hadds & Hbody & _ & Hend & _).
  split; [exact H |].
  split; [exact (Hend H) |].
  split; [exact HA |].
  split; [exact (Hadds Demo.boom_suite Demo.test_A (constructed Demo.start_world) HA) |].
  refine (proj1 (Hbody Demo.boom_suite Demo.test_A (constructed Demo.start_world)
                   Demo.after_setup 1000%Z Demo.after_boom
                   (Js.rejects (Js.object (Js.str "boom"))) _ _ HA) _).
  - vm_compute. reflexivity.
  - vm_compute. reflexivity.
  - discriminate.
Defined.

(** C6 as stated fails: one declared test, no filter, a run that returns;
    the test is executed once but has two results, a passed one and a
    failed one, because the first [send] threw inside the [try]. *)
Lemma passing_test_recorded_twice :
  let m' := fst (Demo.run Demo.flaky_run) in
  filter Demo.flaky_run = None /\
  snd (Demo.run Demo.flaky_run) = inl tt /\
  invocations (trace m') = [(0, 0)] /\
  map Result.passed (results m') = [true; false] /\
  map Result.description (results m') = ["Single: A"; "Single: A"].
Proof. vm_compute. repeat split. Qed.

(** Both tests of the spec's example, in order, one result each. *)
Lemma unfiltered_run_executes_all_in_order_witness :
  let m' := fst (Demo.run Demo.realtime_run) in
  invocations (trace m') = [(0, 0); (0, 1)] /\
  map Result.description (results m') = ["Suite: A"; "Suite: B"].
Proof.
  assert (Hq : quiet_send Demo.realtime_run).
  { intros _. exists Demo.steady_send. split; [reflexivity |].
    intros p w e. discriminate. }
  destruct (unfiltered_run_executes_all_in_order Demo.host Demo.realtime_run
              Demo.start_world eq_refl (ex_intro _ 1000%Z eq_refl))
    as (Hinv & _ & _ & _ & _ & Hres).
  split; [exact Hinv | exact (Hres Hq)].
Defined.

(** C7 as stated fails: one executed test, and the realtime reporter
    receives two [send] calls for it. *)
Lemma passing_test_streamed_twice :
  let m' := fst (Demo.run Demo.flaky_run) in
  snd (Demo.run Demo.flaky_run) = inl tt /\
  invocations (trace m') = [(0, 0)] /\
  List.length (collect (fun e => match e with call_send p => Some p | _ => None end)
                 (trace m')) = 2.
Proof. vm_compute. repeat split. Qed.

(** A realtime reporter with a [send] that never throws: two tests, two
    [send] calls counted by the reporter, then [onFinish], which takes two
    milliseconds and ends the run. *)
Lemma realtime_reporter_calls_witness :
  let m1 := fst (run_cases Demo.host Demo.realtime_run (constructed Demo.start_world)) in
  let m' := fst (Demo.run Demo.realtime_run) in
  reporter_calls (trace m') =
  (map (fun r => call_send (fragment_of r)) (results m')
   ++ [call_onFinish (report_of Demo.host 1000 m1)])%list /\
  List.length (results m') = 2 /\
  world m' = Demo.tick 2 (world m1) /\
  Demo.sent (world m') = 2 /\
  snd (Demo.run Demo.realtime_run) = inl tt /\
  (let call := runTest Demo.host Demo.realtime_run Demo.boom_suite Demo.test_A
                 (constructed Demo.start_world) in
   snd call = inl tt /\ Demo.sent (world (fst call)) = 1 /\
   map Result.passed (results (fst call)) = [false]).
Proof.
  assert (Hs : forall p, never_throws (Demo.steady_send p))
    by (intros p w e; discriminate).
  pose proof (realtime_reporter_calls Demo.host Demo.realtime_run Demo.start_world
                (Js.str "realtime") (fun _ => Demo.ok 2) Demo.steady_send 1000%Z
                eq_refl eq_refl Hs eq_refl eq_refl)
    as (Hcall & Hcalls & _ & Hw & Ho & _).
  split; [exact Hcalls |].
  split; [vm_compute; reflexivity |].
  split; [exact Hw |].
  split; [vm_compute; reflexivity |].
  split; [exact Ho |].
  cbv zeta.
  rewrite (Hcall Demo.boom_suite Demo.test_A (constructed Demo.start_world)
             Demo.after_setup 1000%Z Demo.after_boom
             (Js.rejects (Js.object (Js.str "boom")))
             (failed_result Demo.test_A 1000 (Demo.clock Demo.after_boom) (Js.str "boom"))
             eq_refl eq_refl eq_refl).
  repeat split.
Defined.

(** Every collaborator of the example advances the clock. *)
Lemma demo_steady_clock : steady_clock Demo.host Demo.boom_run.
Proof.
  intros a Ha. destruct Ha as [| | scope hook Hscope Hhook | scope test Hscope Htest].
  - intros w. simpl. lia.
  - intros w. simpl. lia.
  - destruct Hscope as [<- | []]. discriminate Hhook.
  - destruct Hscope as [<- | []].
    destruct Htest as [<- | [<- | []]]; intros w; simpl; lia.
Defined.

(** C8 as stated fails twice.  When [clearAsync] rejects, the run ends
    there and the callback is never called; when the clock is set back
    while a test runs, the callback is called with a negative duration. *)
Lemma callback_skipped_or_negative_duration :
  let m1 := fst (run_cases Demo.host Demo.rewinding_run (constructed Demo.start_world)) in
  let report := report_of Demo.host 1000 m1 in
  (reporter Demo.broken_run = Demo.callback /\
   shouldSendReport Demo.broken_run = None /\
   reporter_calls (trace (fst (Demo.run Demo.broken_run))) = []) /\
  (reporter Demo.rewinding_run = Demo.callback /\
   shouldSendReport Demo.rewinding_run = None /\
   snd (Demo.run Demo.rewinding_run) = inl tt /\
   reporter_calls (trace (fst (Demo.run Demo.rewinding_run))) = [call_reporter report] /\
   Report.duration report = (-4998 # 1000)%Q /\
   (Report.duration report < 0)%Q).
Proof. vm_compute. repeat split. Qed.

(** The callback of the spec's example is called once, with one error; the
    call takes two milliseconds and ends the run. *)
Lemma callback_reporter_called_once_witness :
  let m1 := fst (run_cases Demo.host Demo.boom_run (constructed Demo.start_world)) in
  let m' := fst (Demo.run Demo.boom_run) in
  let report := report_of Demo.host 1000 m1 in
  reporter_calls (trace m') = [call_reporter report] /\
  Report.errorCount report = 1 /\
  world m' = Demo.tick 2 (world m1) /\
  snd (Demo.run Demo.boom_run) = inl tt /\
  (0 <= Report.duration report)%Q.
Proof.
  destruct (callback_reporter_called_once Demo.host Demo.boom_run Demo.start_world
              (fun _ => Demo.ok 2) 1000%Z eq_refl eq_refl eq_refl)
    as (Hcalls & _ & Hw & Ho & _ & _ & _ & _ & _ & _ & Hd).
  split; [exact Hcalls |]. split; [vm_compute; reflexivity |].
  split; [exact Hw |]. split; [exact Ho | exact (Hd demo_steady_clock)].
Defined.

(** The hook runs before each test of its suite and on the suite: the test
    of [hooked_suite] passes only because [prepare] has run before it. *)
Lemma lifecycle_in_fixed_order_witness :
  lifecycle (trace (fst (Demo.run Demo.hooked_run))) =
  [call_clearAsync; call_beforeEach 7; call_reRender; call_f 7;
   call_clearAsync; call_reRender; call_f 1;
   call_clearAsync; call_reRender; call_f 1] /\
  map Result.passed (results (fst (Demo.run Demo.hooked_run))) = [true; false; true] /\
  Demo.prepared
    (world (fst (runTest Demo.host Demo.hooked_run Demo.hooked_suite Demo.hooked_test
                   (constructed Demo.start_world)))) = true.
Proof.
  pose proof (lifecycle_in_fixed_order Demo.host Demo.hooked_run)
    as (Hcall & _ & Hrun).
  split; [| split; [vm_compute; reflexivity |]].
  - apply (Hrun Demo.start_world). exists 1000%Z. vm_compute. reflexivity.
  - specialize (Hcall Demo.hooked_suite Demo.hooked_test (constructed Demo.start_world)).
    destruct Hcall as (_ & _ & _ & Hw).
    rewrite (Hw I). reflexivity.
Defined.

(** The spec's example without a reporter. *)
Lemma nullish_reporter_raises_witness :
  exists e, snd (Demo.run Demo.no_reporter_run) = inr e.
Proof.
  apply (proj2 (proj2 (nullish_reporter_raises Demo.host Demo.no_reporter_run eq_refl))).
  discriminate.
Defined.

(** * The further properties on concrete runs *)

(** Test B of the spec's example: its body fulfils. *)
Lemma runTest_records_success_witness :
  let m := constructed Demo.start_world in
  let r := success_result Demo.test_B 1000 1007 in
  let m' := fst (runTest Demo.host Demo.boom_run Demo.boom_suite Demo.test_B m) in
  (exists more, results m' = (results m ++ r :: more)%list) /\
  (quiet_send Demo.boom_run ->
   snd (runTest Demo.host Demo.boom_run Demo.boom_suite Demo.test_B m) = inl tt /\
   results m' = (results m ++ [r])%list /\
   errorCount m' = errorCount m).
Proof.
  exact (runTest_records_success Demo.host Demo.boom_run Demo.boom_suite
           Demo.test_B (constructed Demo.start_world) Demo.after_setup 1000%Z
           (Demo.tick 5 (world Demo.after_setup)) eq_refl eq_refl).
Defined.

(** A body that rejects with nothing: no result, and the error of the
    handler leaves [runTest]. *)
Lemma nullish_failure_escapes_witness :
  let m := constructed Demo.start_world in
  let m' := fst (runTest Demo.host Demo.silent_run Demo.silent_suite Demo.silent_test m) in
  snd (runTest Demo.host Demo.silent_run Demo.silent_suite Demo.silent_test m) =
  inr (Js.TypeError "Cannot read property 'message' of undefined") /\
  results m' = [] /\ errorCount m' = 0.
Proof.
  destruct (nullish_failure_escapes Demo.host Demo.silent_run Demo.silent_suite
              Demo.silent_test (constructed Demo.start_world) Demo.after_setup 1000%Z
              (Demo.tick 1 (world Demo.after_setup)) (Js.rejects Js.nullish)
              eq_refl eq_refl (or_introl eq_refl))
    as (Hout & Hres & Hcount & _).
  split; [exact Hout | split; [exact Hres | exact Hcount]].
Defined.

(** A [reRender] whose promise rejects: the body of test A is still
    called. *)
Lemma reRender_is_not_awaited_witness :
  let m := constructed Demo.start_world in
  snd (before_try Demo.host Demo.lazy_run Demo.boom_suite m) = inl 1000%Z /\
  In (call_f 1) (trace (fst (runTest Demo.host Demo.lazy_run Demo.boom_suite Demo.test_A m))).
Proof.
  destruct (reRender_is_not_awaited Demo.host Demo.lazy_run Demo.boom_suite Demo.test_A
              (constructed Demo.start_world)
              (Demo.tick 1 Demo.start_world) (Demo.tick 1 Demo.start_world)
              (Demo.tick 1 (Demo.tick 1 Demo.start_world))
              (Js.object (Js.str "render failed")) eq_refl eq_refl eq_refl)
    as (Hout & _ & Hin).
  split; [exact Hout | exact Hin].
Defined.

Lemma demo_reliable_setup : reliable_setup Demo.boom_run.
Proof.
  split; [| split].
  - intros w. reflexivity.
  - intros w e. discriminate.
  - intros scope hook [<- | []] Hhook. discriminate Hhook.
Defined.

Lemma demo_proper_errors : proper_errors Demo.boom_run.
Proof.
  intros scope test [<- | []] [<- | [<- | []]] w; split; discriminate.
Defined.

(** The run of the spec's example: test A fails, and the loops return. *)
Lemma body_failures_never_abort_witness :
  completes (run_cases Demo.host Demo.boom_run) (constructed Demo.start_world).
Proof.
  exact (body_failures_never_abort Demo.host Demo.boom_run
           (constructed Demo.start_world) demo_reliable_setup demo_proper_errors I).
Defined.

(** The run whose [clearAsync] rejects: one test begun, none after it, no
    report. *)
Lemma escaped_error_ends_the_run_witness :
  snd (Demo.run Demo.broken_run) = inr (Js.object (Js.str "storage unavailable")) /\
  deliveries (trace (fst (Demo.run Demo.broken_run))) = [].
Proof.
  destruct (escaped_error_ends_the_run Demo.host Demo.broken_run Demo.start_world
              (Js.object (Js.str "storage unavailable")))
    as (Hout & _ & Hd & _).
  - vm_compute. reflexivity.
  - split; [exact Hout | exact Hd].
Defined.

(** Under the filter [["smoke"]], one result, that of the test tagged
    "smoke". *)
Lemma results_follow_selection_witness :
  selected Demo.tagged_run = [((0, 0), (Demo.tagged_suite, Demo.smoke_test))] /\
  Forall2 result_of (selected Demo.tagged_run) (results (fst (Demo.run Demo.tagged_run))).
Proof.
  split; [reflexivity |].
  apply (results_follow_selection Demo.host Demo.tagged_run Demo.start_world).
  - exact I.
  - exists 1000%Z. vm_compute. reflexivity.
Defined.

(** An empty filter, a component that fails and no reporter: nothing is
    called, so nothing fails. *)
Lemma empty_filter_runs_nothing_witness :
  selected Demo.empty_filter_run = [] /\
  run_cases Demo.host Demo.empty_filter_run (constructed Demo.start_world) =
  (started Demo.host (constructed Demo.start_world), inl 1000%Z).
Proof.
  exact (empty_filter_runs_nothing Demo.host Demo.empty_filter_run
           (constructed Demo.start_world) eq_refl).
Defined.

Lemma no_suites_empty_report_witness :
  let report := report_of Demo.host 1000 (started Demo.host (constructed Demo.start_world)) in
  selected Demo.unmatched_filter_run = [] /\
  reporter_calls (trace (fst (Demo.run Demo.unmatched_filter_run))) =
  [call_reporter report] /\
  world (fst (Demo.run Demo.unmatched_filter_run)) = Demo.tick 2 Demo.start_world /\
  snd (Demo.run Demo.unmatched_filter_run) = inl tt /\
  Report.results report = [].
Proof.
  destruct (no_suites_empty_report Demo.host Demo.unmatched_filter_run Demo.start_world
              (fun _ => Demo.ok 2) eq_refl eq_refl eq_refl)
    as (Hrun & Hres & _).
  split; [reflexivity |].
  unfold Demo.run. rewrite Hrun.
  split; [reflexivity |]. split; [reflexivity |]. split; [reflexivity | exact Hres].
Defined.

(** The deferred reporter of the example gets the report, once, and counts
    it. *)
Lemma deferred_reporter_receives_report_once_witness :
  let m1 := fst (run_cases Demo.host Demo.deferred_run (constructed Demo.start_world)) in
  reporter_calls (trace (fst (Demo.run Demo.deferred_run))) =
  [call_send (whole (report_of Demo.host 1000 m1))] /\
  Demo.sent (world (fst (Demo.run Demo.deferred_run))) = 1 /\
  snd (Demo.run Demo.deferred_run) = inl tt.
Proof.
  destruct (deferred_reporter_receives_report_once Demo.host Demo.deferred_run
              Demo.start_world (Js.str "deferred") None Demo.steady_send 1000%Z
              eq_refl eq_refl eq_refl
              (fun H : None = Some false => eq_ind None (fun o => match o with None => True | Some _ => False end) I _ H)
              eq_refl)
    as (Hcalls & _ & Hw & Ho).
  split; [exact Hcalls |].
  split; [| exact Ho].
  unfold Demo.run. rewrite Hw. reflexivity.
Defined.

Lemma report_handed_over_once_witness :
  let m1 := fst (run_cases Demo.host Demo.boom_run (constructed Demo.start_world)) in
  deliveries (trace (fst (Demo.run Demo.boom_run))) = [report_of Demo.host 1000 m1].
Proof.
  apply (report_handed_over_once Demo.host Demo.boom_run Demo.start_world 1000%Z).
  - discriminate.
  - vm_compute. reflexivity.
Defined.

Lemma legacy_true_warns_and_reports_witness :
  let m1 := fst (run_cases Demo.host Demo.legacy_true_run (constructed Demo.start_world)) in
  let m' := fst (Demo.run Demo.legacy_true_run) in
  warnings (trace m') = (warnings (trace m1) ++ [deprecation_message])%list /\
  deliveries (trace m') = [report_of Demo.host 1000 m1].
Proof.
  apply (legacy_true_warns_and_reports Demo.host Demo.legacy_true_run Demo.start_world
           1000%Z).
  - reflexivity.
  - vm_compute. reflexivity.
Defined.

(** A realtime reporter without [onFinish]. *)
Lemma missing_member_raises_witness :
  snd (Demo.run Demo.headless_run) =
  inr (Js.TypeError ("this.reporter.onFinish" ++ " is not a function")) /\
  deliveries (trace (fst (Demo.run Demo.headless_run))) = [].
Proof.
  apply (missing_member_raises Demo.host Demo.headless_run Demo.start_world
           (Js.str "realtime") None (Some Demo.steady_send) 1000%Z
           "this.reporter.onFinish").
  - reflexivity.
  - left. repeat split.
  - discriminate.
  - vm_compute. reflexivity.
Defined.

(** [sendReport] false with a callback and with a realtime reporter. *)
Lemma legacy_false_hands_over_nothing_witness :
  deliveries (trace (fst (Demo.run Demo.legacy_realtime_run))) = [] /\
  snd (Demo.run Demo.legacy_realtime_run) = inl tt.
Proof.
  destruct (legacy_false_hands_over_nothing Demo.host Demo.legacy_realtime_run
              Demo.start_world eq_refl) as [Hd Hend].
  split; [exact Hd |].
  apply Hend. exists 1000%Z. vm_compute. reflexivity.
Defined.

Lemma legacy_false_silences_other_reporters_witness :
  reporter_calls (trace (fst (Demo.run Demo.legacy_false_run))) = [].
Proof.
  exact (legacy_false_silences_other_reporters Demo.host Demo.legacy_false_run
           Demo.start_world eq_refl I).
Defined.

(** The reporter of type 'batch' on the strict demo host: the assignment
    of line 96 raises. *)
Lemma unrecognised_reporter_diagnostic_witness :
  snd (Demo.run Demo.odd_reporter_run) =
  inr (Js.ReferenceError "message is not defined").
Proof.
  apply (proj1 (unrecognised_reporter_diagnostic Demo.host Demo.odd_reporter_run
                  Demo.start_world 1000%Z (conj eq_refl eq_refl)
                  (fun H : None = Some false => eq_ind None (fun o => match o with None => True | Some _ => False end) I _ H)
                  eq_refl)).
Defined.

(** No suite and no reporter. *)
Lemma nullish_reporter_raises_at_the_end_witness :
  snd (Demo.run Demo.no_reporter_no_suite_run) = inr type_of_nullish.
Proof.
  apply (nullish_reporter_raises_at_the_end Demo.host Demo.no_reporter_no_suite_run
           (constructed Demo.start_world)).
  - reflexivity.
  - discriminate.
  - reflexivity.
Defined.
